(** * A/B experiment engine: a shallow embedding of [ab_testing_service.py]

    The development follows the service class [ABTestingService]:
    - the relational tables ([ab_experiments], [ab_assignments], ...) and the
      Redis key space are explicit state, threaded through every operation;
    - Python floats are idealised as exact rationals ([Q]) wherever the code
      only adds, multiplies, divides and compares, and as real numbers in the
      t-test, which needs [sqrt] and [tanh];
    - a raised exception is a value of [Result]; [try ... except] blocks are
      written out as matches on it;
    - [random.random()] and [uuid.uuid4()] are inputs of the operations that
      call them. *)

From Stdlib Require Import QArith Qabs Reals Lra Lia ZArith List.
From stdpp Require Import gmap strings list fin_maps pretty.

Local Open Scope string_scope.
Local Open Scope Z_scope.

(** ** Exceptions *)

Inductive Result (A : Type) : Type :=
| Ok (a : A)
| Raise (msg : string).
Arguments Ok {A} a.
Arguments Raise {A} msg.

#[global] Instance Result_ret : MRet Result := fun _ a => Ok a.
#[global] Instance Result_bind : MBind Result := fun _ _ k r =>
  match r with
  | Ok a => k a
  | Raise msg => Raise msg
  end.

(** ** Data model *)

Inductive ExperimentStatus := DRAFT | RUNNING | PAUSED | COMPLETED | CANCELLED.

(** [ExperimentStatus.X.value] *)
Definition status_value (s : ExperimentStatus) : string :=
  match s with
  | DRAFT => "draft"
  | RUNNING => "running"
  | PAUSED => "paused"
  | COMPLETED => "completed"
  | CANCELLED => "cancelled"
  end.

(** The dataclass [ExperimentVariant]; [asdict] of it is what the
    [variants] column holds, so [name] and [weight] are always present. *)
Record ExperimentVariant := {
  variant_name : string;
  variant_weight : Q;
  variant_description : string
}.

(** The dataclass [ExperimentMetric]. The [type] field is whatever string the
    caller supplied: the code compares it with string literals. *)
Record ExperimentMetric := {
  metric_name : string;
  metric_type : string;
  metric_aggregation : string;
  is_primary : bool
}.

(** ** Weighted variant selection *)

Module Select.

(** The first loop of [_select_variant_by_weight]:
    [current_sum += weight; cumulative_weights.append(current_sum)]. *)
Fixpoint cumulative_weights (current_sum : Q) (weights : list Q) : list Q :=
  match weights with
  | [] => []
  | weight :: rest =>
      let current_sum := (current_sum + weight)%Q in
      current_sum :: cumulative_weights current_sum rest
  end.

(** The value of [current_sum] when that loop ends. *)
Fixpoint final_sum (current_sum : Q) (weights : list Q) : Q :=
  match weights with
  | [] => current_sum
  | weight :: rest => final_sum (current_sum + weight)%Q rest
  end.

(** The second loop: the index of the first cumulative weight with
    [random_value <= cumulative_weight], counting from [i]. *)
Fixpoint find_index (random_value : Q) (i : nat) (cws : list Q) : option nat :=
  match cws with
  | [] => None
  | cumulative_weight :: rest =>
      if Qle_bool random_value cumulative_weight then Some i
      else find_index random_value (S i) rest
  end.

(** [variants[i]['name']], raising [IndexError] out of range. *)
Definition name_at (variants : list ExperimentVariant) (i : nat) : Result string :=
  match variants !! i with
  | Some v => Ok (variant_name v)
  | None => Raise "IndexError"
  end.

(** [variants[-1]['name']] *)
Definition name_last (variants : list ExperimentVariant) : Result string :=
  match last variants with
  | Some v => Ok (variant_name v)
  | None => Raise "IndexError"
  end.

(** The [try] block. [r] is the value returned by [random.random()]. *)
Definition select_try (variants : list ExperimentVariant) (r : Q) : Result string :=
  let weights := map variant_weight variants in
  let cws := cumulative_weights 0 weights in
  let current_sum := final_sum 0 weights in
  let random_value := (r * current_sum)%Q in
  match find_index random_value 0 cws with
  | Some i => name_at variants i
  | None => name_last variants
  end.

(** [_select_variant_by_weight]: the [except] handler returns
    [variants[0]['name']], which itself raises on an empty list. *)
Definition _select_variant_by_weight (variants : list ExperimentVariant) (r : Q)
  : Result string :=
  match select_try variants r with
  | Ok name => Ok name
  | Raise _ => name_at variants 0
  end.

(** The ladder as the specification words it: the cumulative weight of
    position [i] is the sum of the weights of the first [i+1] variants, the
    total weight is the sum of all of them. *)
Definition sum_weights (vs : list ExperimentVariant) : Q :=
  foldr (fun v acc => (variant_weight v + acc)%Q) 0%Q vs.

Definition cumulative_weight (vs : list ExperimentVariant) (i : nat) : Q :=
  sum_weights (take (S i) vs).

Definition total_weight (vs : list ExperimentVariant) : Q := sum_weights vs.


End Select.


(** ** The Metric Store (Redis) *)

(** A hash field holds the text [hset] was given: the [str] of a Python
    [int] or of a Python [float]. Reading it back, [float(b)] accepts both,
    [int(b)] accepts only the former ([int(b'15.0')] is a [ValueError]). *)
Inductive rval :=
| RInt (z : Z)
| RFloat (q : Q).

Definition py_float (v : rval) : Q :=
  match v with
  | RInt z => inject_Z z
  | RFloat q => q
  end.

Definition py_int (v : rval) : Result Z :=
  match v with
  | RInt z => Ok z
  | RFloat _ => Raise "ValueError"
  end.

(** One key space; a key holds a hash or a plain string. *)
Inductive redis_entry :=
| RHash (h : gmap string rval)
| RString (s : string).

Abbreviation Redis := (gmap string redis_entry).

(** ** The repository (PostgreSQL tables) *)

(** A row of [ab_experiments]. The [variants] and [metrics] JSON columns
    are kept as the lists they encode; [created_at], [updated_at] and
    [config] play no part in what follows and are left out. *)
Record ExperimentRow := {
  exp_name : string;
  exp_description : string;
  exp_status : string;
  exp_variants : list ExperimentVariant;
  exp_metrics : list ExperimentMetric;
  exp_start_date : Z;
  exp_end_date : option Z;
  exp_created_by : string
}.

Definition with_status (status : string) (e : ExperimentRow) : ExperimentRow :=
  {| exp_name := exp_name e; exp_description := exp_description e;
     exp_status := status;
     exp_variants := exp_variants e; exp_metrics := exp_metrics e;
     exp_start_date := exp_start_date e; exp_end_date := exp_end_date e;
     exp_created_by := exp_created_by e |}.

(** A row of [ab_assignments]. The table declares no key besides the
    generated [id], so it is a list of rows, in insertion order. *)
Record AssignmentRow := {
  asg_experiment_id : string;
  asg_user_id : string;
  asg_variant_name : string;
  asg_completed_at : option Z
}.

Record EventRow := {
  ev_experiment_id : string;
  ev_user_id : string;
  ev_variant_name : string;
  ev_event_name : string
}.

(** A row of [ab_results], without [calculated_at] and the confidence
    interval columns, which the service never writes. *)
Record ResultRow := {
  res_experiment_id : string;
  res_variant_name : string;
  res_metric_name : string;
  res_metric_value : Q;
  res_sample_size : Z;
  res_p_value : option Q;
  res_statistical_significance : bool
}.

Record World := {
  ab_experiments : gmap string ExperimentRow;
  ab_assignments : list AssignmentRow;
  ab_events : list EventRow;
  ab_results : list ResultRow;
  redis : Redis
}.

Definition empty_world : World :=
  {| ab_experiments := ∅; ab_assignments := []; ab_events := [];
     ab_results := []; redis := ∅ |}.

Definition set_experiments (f : gmap string ExperimentRow -> gmap string ExperimentRow)
    (w : World) : World :=
  {| ab_experiments := f (ab_experiments w); ab_assignments := ab_assignments w;
     ab_events := ab_events w; ab_results := ab_results w; redis := redis w |}.

Definition set_assignments (f : list AssignmentRow -> list AssignmentRow)
    (w : World) : World :=
  {| ab_experiments := ab_experiments w; ab_assignments := f (ab_assignments w);
     ab_events := ab_events w; ab_results := ab_results w; redis := redis w |}.

Definition set_events (f : list EventRow -> list EventRow) (w : World) : World :=
  {| ab_experiments := ab_experiments w; ab_assignments := ab_assignments w;
     ab_events := f (ab_events w); ab_results := ab_results w; redis := redis w |}.

Definition set_results (f : list ResultRow -> list ResultRow) (w : World) : World :=
  {| ab_experiments := ab_experiments w; ab_assignments := ab_assignments w;
     ab_events := ab_events w; ab_results := f (ab_results w); redis := redis w |}.

Definition set_redis (r : Redis) (w : World) : World :=
  {| ab_experiments := ab_experiments w; ab_assignments := ab_assignments w;
     ab_events := ab_events w; ab_results := ab_results w; redis := r |}.

(** ** Service operations: state and exceptions

    An operation takes the world and returns its outcome with the world it
    leaves behind. What was written before an exception stays written. *)

Definition M (A : Type) : Type := World -> Result A * World.

#[global] Instance M_ret : MRet M := fun _ a w => (Ok a, w).
#[global] Instance M_bind : MBind M := fun _ _ k m w =>
  match m w with
  | (Ok a, w') => k a w'
  | (Raise msg, w') => (Raise msg, w')
  end.

Definition raise {A} (msg : string) : M A := fun w => (Raise msg, w).

Definition gets {A} (f : World -> A) : M A := fun w => (Ok (f w), w).

Definition modify (f : World -> World) : M unit := fun w => (Ok tt, f w).

Definition lift {A} (r : Result A) : M A := fun w => (r, w).

(** [try: body except Exception: handler] *)
Definition try_except {A} (body : M A) (handler : string -> M A) : M A :=
  fun w =>
    match body w with
    | (Ok a, w') => (Ok a, w')
    | (Raise msg, w') => handler msg w'
    end.

(** [for x in xs: body(x)] *)
Fixpoint for_each {A} (xs : list A) (body : A -> M unit) : M unit :=
  match xs with
  | [] => mret tt
  | x :: rest => _ ← body x; for_each rest body
  end.

(** *** Redis commands *)

Definition hget (key field : string) : M (option rval) :=
  r ← gets redis;
  match r !! key with
  | None => mret None
  | Some (RHash h) => mret (h !! field)
  | Some (RString _) => raise "WRONGTYPE"
  end.

Definition hgetall (key : string) : M (gmap string rval) :=
  r ← gets redis;
  match r !! key with
  | None => mret ∅
  | Some (RHash h) => mret h
  | Some (RString _) => raise "WRONGTYPE"
  end.

(** [hset(key, mapping=...)]: the given fields are written over the hash
    already there, the other fields stay. An empty mapping is a [DataError]. *)
Definition hset_mapping (key : string) (mapping : list (string * rval)) : M unit :=
  match mapping with
  | [] => raise "DataError"
  | _ =>
      r ← gets redis;
      match r !! key with
      | Some (RString _) => raise "WRONGTYPE"
      | Some (RHash h) =>
          modify (set_redis (<[key := RHash (list_to_map mapping ∪ h)]> r))
      | None =>
          modify (set_redis (<[key := RHash (list_to_map mapping)]> r))
      end
  end.

Definition hset (key field : string) (v : rval) : M unit :=
  hset_mapping key [(field, v)].

Definition hmset (key : string) (mapping : list (string * rval)) : M unit :=
  hset_mapping key mapping.

Definition hincrby (key field : string) (amount : Z) : M unit :=
  old ← hget key field;
  n ← lift (match old with Some v => py_int v | None => Ok 0 end);
  hset key field (RInt (n + amount)).

(** [setex(key, ttl, value)]; expiry is not modelled. *)
Definition setex (key : string) (value : string) : M unit :=
  r ← gets redis; modify (set_redis (<[key := RString value]> r)).

(** [float(self.redis_client.hget(key, field) or 0)] *)
Definition hget_float (key field : string) : M Q :=
  v ← hget key field;
  mret (match v with Some x => py_float x | None => 0%Q end).

(** [int(self.redis_client.hget(key, field) or 0)] *)
Definition hget_int (key field : string) : M Z :=
  v ← hget key field;
  lift (match v with Some x => py_int x | None => Ok 0 end).

(** *** Keys *)

Definition stats_key (experiment_id : string) : string :=
  "experiment:" +:+ experiment_id +:+ ":stats".

Definition metric_key (experiment_id variant_name metric_name : string) : string :=
  "experiment:" +:+ experiment_id +:+ ":metrics:" +:+ variant_name +:+ ":" +:+ metric_name.

Definition category_key (experiment_id variant_name metric_name : string) : string :=
  metric_key experiment_id variant_name metric_name +:+ ":categories".

Definition cache_key (experiment_id user_id : string) : string :=
  "assignment:" +:+ experiment_id +:+ ":" +:+ user_id.

(** *** Repository queries *)

Definition _get_experiment (experiment_id : string) : M (option ExperimentRow) :=
  gets (fun w => ab_experiments w !! experiment_id).

Definition _get_experiment_variants (experiment_id : string)
  : M (list ExperimentVariant) :=
  gets (fun w => match ab_experiments w !! experiment_id with
                 | Some e => exp_variants e
                 | None => []
                 end).

Definition _get_experiment_metrics (experiment_id : string)
  : M (list ExperimentMetric) :=
  gets (fun w => match ab_experiments w !! experiment_id with
                 | Some e => exp_metrics e
                 | None => []
                 end).

Definition _get_metric_type (experiment_id metric : string) : M string :=
  metrics ← _get_experiment_metrics experiment_id;
  mret (match find (fun m => String.eqb (metric_name m) metric) metrics with
        | Some m => metric_type m
        | None => "numerical"
        end).

(** [UPDATE ab_experiments SET status = %s WHERE id = %s] *)
Definition update_status (experiment_id status : string) : M unit :=
  modify (set_experiments (alter (with_status status) experiment_id)).

(** ** Lifecycle *)

(** The dictionary handed to [create_experiment]; a field that may be
    missing is an [option]. *)
Record experiment_data := {
  d_name : option string;
  d_description : option string;
  d_variants : option (list ExperimentVariant);
  d_metrics : option (list ExperimentMetric);
  d_start_date : option Z;
  d_end_date : option Z;
  d_created_by : option string
}.

Definition _validate_experiment_data (data : experiment_data) : bool :=
  match d_name data, d_variants data, d_metrics data, d_start_date data with
  | Some _, Some variants, Some metrics, Some _ =>
      if (length variants <? 2)%nat then false
      else
        let total_weight :=
          fold_left Qplus (map variant_weight variants) 0%Q in
        if negb (Qle_bool (Qabs (total_weight - 1)) (1 # 100)) then false
        else if (length metrics =? 0)%nat then false
        else true
  | _, _, _, _ => false
  end.

Definition zero_counters : list (string * rval) :=
  [("sum", RInt 0); ("count", RInt 0); ("squared_sum", RInt 0)].

Definition _initialize_experiment_data (experiment_id : string) : M unit :=
  variants ← _get_experiment_variants experiment_id;
  let stats :=
    flat_map (fun v => [("assignments:" +:+ variant_name v, RInt 0);
                        ("completions:" +:+ variant_name v, RInt 0)]) variants in
  _ ← hmset (stats_key experiment_id) stats;
  metrics ← _get_experiment_metrics experiment_id;
  for_each metrics (fun metric =>
    variants ← _get_experiment_variants experiment_id;
    for_each variants (fun variant =>
      hset_mapping
        (metric_key experiment_id (variant_name variant) (metric_name metric))
        zero_counters)).


(** [create_experiment]; [new_id] is the [uuid.uuid4()] it draws. The
    [INSERT] fails on a primary key already present. *)
Definition create_experiment (new_id : string) (data : experiment_data) : M string :=
  try_except
    (if negb (_validate_experiment_data data) then raise "Invalid experiment data"
     else
       match d_name data, d_variants data, d_metrics data, d_start_date data with
       | Some name, Some variants, Some metrics, Some start_date =>
           let experiment :=
             {| exp_name := name;
                exp_description := default "" (d_description data);
                exp_status := status_value DRAFT;
                exp_variants := variants;
                exp_metrics := metrics;
                exp_start_date := start_date;
                exp_end_date := d_end_date data;
                exp_created_by := default "system" (d_created_by data) |} in
           existing ← _get_experiment new_id;
           match existing with
           | Some _ => raise "UniqueViolation"
           | None =>
               _ ← modify (set_experiments (<[new_id := experiment]>));
               _ ← _initialize_experiment_data new_id;
               mret new_id
           end
       | _, _, _, _ => raise "KeyError"
       end)
    (fun msg => raise ("Failed to create experiment: " +:+ msg)).

(** [start_experiment]. The scheduler task it spawns is not part of the
    call's own effect and is not modelled. *)
Definition start_experiment (experiment_id : string) : M string :=
  try_except
    (experiment ← _get_experiment experiment_id;
     match experiment with
     | None => raise "Experiment not found"
     | Some e =>
         if negb (String.eqb (exp_status e) (status_value DRAFT))
         then raise "Experiment is not in draft state"
         else
           _ ← update_status experiment_id (status_value RUNNING);
           mret "started"
     end)
    (fun msg => raise ("Failed to start experiment: " +:+ msg)).

Definition pause_experiment (experiment_id : string) : M string :=
  try_except
    (experiment ← _get_experiment experiment_id;
     match experiment with
     | None => raise "Experiment not found"
     | Some e =>
         if negb (String.eqb (exp_status e) (status_value RUNNING))
         then raise "Experiment is not running"
         else
           _ ← update_status experiment_id (status_value PAUSED);
           mret "paused"
     end)
    (fun msg => raise ("Failed to pause experiment: " +:+ msg)).

Definition resume_experiment (experiment_id : string) : M string :=
  try_except
    (experiment ← _get_experiment experiment_id;
     match experiment with
     | None => raise "Experiment not found"
     | Some e =>
         if negb (String.eqb (exp_status e) (status_value PAUSED))
         then raise "Experiment is not paused"
         else
           _ ← update_status experiment_id (status_value RUNNING);
           mret "resumed"
     end)
    (fun msg => raise ("Failed to resume experiment: " +:+ msg)).

(** [_complete_experiment]: one [UPDATE], whatever the row holds. *)
Definition _complete_experiment (experiment_id : string) : M unit :=
  update_status experiment_id (status_value COMPLETED).

Definition complete_experiment (experiment_id : string) : M string :=
  try_except
    (_ ← _complete_experiment experiment_id;
     mret "completed")
    (fun msg => raise ("Failed to complete experiment: " +:+ msg)).

(** ** Assignment *)

(** The [WHERE] clause of [_get_user_assignment] and
    [_mark_assignment_completed]. *)
Definition open_assignment_of (experiment_id user_id : string) (a : AssignmentRow)
  : bool :=
  String.eqb (asg_experiment_id a) experiment_id
  && String.eqb (asg_user_id a) user_id
  && match asg_completed_at a with None => true | Some _ => false end.

(** [_get_user_assignment]: [fetchone()] takes the first matching row. *)
Definition _get_user_assignment (experiment_id user_id : string)
  : M (option AssignmentRow) :=
  gets (fun w => find (open_assignment_of experiment_id user_id) (ab_assignments w)).

(** [_record_assignment]: a plain [INSERT] of this row. *)
Definition new_row (experiment_id user_id variant : string) : AssignmentRow :=
  {| asg_experiment_id := experiment_id; asg_user_id := user_id;
     asg_variant_name := variant; asg_completed_at := None |}.

Definition _record_assignment (experiment_id user_id variant : string) : M unit :=
  modify (set_assignments (fun rows =>
    (rows ++ [new_row experiment_id user_id variant])%list)).

Definition _mark_assignment_completed (now : Z) (experiment_id user_id : string)
  : M unit :=
  modify (set_assignments (map (fun a =>
    if open_assignment_of experiment_id user_id a
    then {| asg_experiment_id := asg_experiment_id a; asg_user_id := asg_user_id a;
            asg_variant_name := asg_variant_name a; asg_completed_at := Some now |}
    else a))).

(** What [_mark_assignment_completed] makes of one row. *)
Definition closed (now : Z) (e u : string) (a : AssignmentRow) : AssignmentRow :=
  if open_assignment_of e u a
  then {| asg_experiment_id := asg_experiment_id a; asg_user_id := asg_user_id a;
          asg_variant_name := asg_variant_name a; asg_completed_at := Some now |}
  else a.

(** What [assign_user_to_variant] returns: the variant and the [status]
    entry of the dictionary. *)
Record assignment_reply := {
  reply_variant : string;
  reply_status : string
}.

(** The first half of [assign_user_to_variant], up to and including the
    choice of a variant: either the reply for a user already assigned, or
    the variant chosen for a new one. [r] is the [random.random()] draw. *)
Definition assign_lookup (experiment_id user_id : string) (r : Q)
  : M (assignment_reply + string) :=
  experiment ← _get_experiment experiment_id;
  match experiment with
  | None => raise "Experiment not found"
  | Some e =>
      if negb (String.eqb (exp_status e) (status_value RUNNING))
      then raise "Experiment is not running"
      else
        existing_assignment ← _get_user_assignment experiment_id user_id;
        match existing_assignment with
        | Some a =>
            mret (inl {| reply_variant := asg_variant_name a;
                         reply_status := "already_assigned" |})
        | None =>
            variants ← _get_experiment_variants experiment_id;
            variant ← lift (Select._select_variant_by_weight variants r);
            mret (inr variant)
        end
  end.

(** The second half: record the assignment, cache it, reply. *)
Definition assign_record (experiment_id user_id variant : string)
  : M assignment_reply :=
  _ ← _record_assignment experiment_id user_id variant;
  _ ← setex (cache_key experiment_id user_id) variant;
  mret {| reply_variant := variant; reply_status := "assigned" |}.

Definition assign_user_to_variant (experiment_id user_id : string) (r : Q)
  : M assignment_reply :=
  try_except
    (found ← assign_lookup experiment_id user_id r;
     match found with
     | inl reply => mret reply
     | inr variant => assign_record experiment_id user_id variant
     end)
    (fun msg => raise ("Failed to assign user to variant: " +:+ msg)).

(** ** Event ingestion *)

(** The dictionary handed to [track_event]; [event_value] may be missing. *)
Record event := {
  event_experiment_id : string;
  event_user_id : string;
  event_variant_name : string;
  event_name : string;
  event_value : option Q
}.

(** Stand-in for Python's [str] of the event value, used only as the field
    name of a category counter. *)
Definition str_value (v : Q) : string :=
  let q := Qred v in
  pretty (Qnum q) +:+ "/" +:+ pretty (Z.pos (Qden q)).

(** The body of the loop over the experiment's metrics in [track_event]. *)
Definition update_metric (experiment_id variant : string) (value : Q)
    (metric : ExperimentMetric) : M unit :=
  let metric_key := metric_key experiment_id variant (metric_name metric) in
  let mtype := metric_type metric in
  if String.eqb mtype "numerical" || String.eqb mtype "rate" then
    current_sum ← hget_float metric_key "sum";
    current_count ← hget_int metric_key "count";
    _ ← hset metric_key "sum" (RFloat (current_sum + value));
    _ ← hset metric_key "count" (RInt (current_count + 1));
    current_squared_sum ← hget_float metric_key "squared_sum";
    hset metric_key "squared_sum" (RFloat (current_squared_sum + value ^ 2))
  else if String.eqb mtype "binary" then
    current_sum ← hget_float metric_key "sum";
    current_count ← hget_int metric_key "count";
    _ ← hset metric_key "sum" (RFloat (current_sum + value));
    hset metric_key "count" (RInt (current_count + 1))
  else if String.eqb mtype "categorical" then
    hincrby (category_key experiment_id variant (metric_name metric))
            (str_value value) 1
  else mret tt.

(** [track_event]; [now] is the clock read by [_mark_assignment_completed]. *)
Definition track_event (now : Z) (ev : event) : M string :=
  try_except
    (let experiment_id := event_experiment_id ev in
     let event_value := default 1%Q (event_value ev) in
     experiment ← _get_experiment experiment_id;
     match experiment with
     | None => raise "Experiment not found"
     | Some e =>
         _ ← for_each (exp_metrics e)
               (update_metric experiment_id (event_variant_name ev) event_value);
         _ ← modify (set_events (fun rows =>
               (rows ++ [{| ev_experiment_id := experiment_id;
                            ev_user_id := event_user_id ev;
                            ev_variant_name := event_variant_name ev;
                            ev_event_name := event_name ev |}])%list));
         _ ← (if String.eqb (event_name ev) "experiment_completed"
              then _mark_assignment_completed now experiment_id (event_user_id ev)
              else mret tt);
         mret "tracked"
     end)
    (fun msg => raise ("Failed to track event: " +:+ msg)).

(** ** Materialisation *)

(** [int(metric_data.get(b'count', 0))] *)
Definition stored_count (metric_data : gmap string rval) : Result Z :=
  match metric_data !! "count" with
  | Some v => py_int v
  | None => Ok 0
  end.

(** [float(metric_data.get(b'sum', 0))] *)
Definition stored_sum (metric_data : gmap string rval) : Q :=
  match metric_data !! "sum" with
  | Some v => py_float v
  | None => 0%Q
  end.

(** [_calculate_metric_value]; any exception gives [0.0]. *)
Definition _calculate_metric_value (metric_data : gmap string rval)
    (metric_type : string) : Q :=
  let body : Result Q :=
    count ← stored_count metric_data;
    if count =? 0 then Ok 0%Q
    else
      if String.eqb metric_type "numerical" then
        let sum_val := stored_sum metric_data in Ok (sum_val / inject_Z count)%Q
      else if String.eqb metric_type "binary" then
        let sum_val := stored_sum metric_data in Ok (sum_val / inject_Z count)%Q
      else if String.eqb metric_type "rate" then
        let sum_val := stored_sum metric_data in Ok (sum_val / inject_Z count)%Q
      else Ok (inject_Z count) in
  match body with
  | Ok v => v
  | Raise _ => 0%Q
  end.

Definition same_result_key (experiment_id variant metric : string) (row : ResultRow)
  : bool :=
  String.eqb (res_experiment_id row) experiment_id
  && String.eqb (res_variant_name row) variant
  && String.eqb (res_metric_name row) metric.

(** [INSERT INTO ab_results ... ON CONFLICT (experiment_id, variant_name,
    metric_name) DO UPDATE SET metric_value, sample_size, calculated_at]. *)
Definition upsert_result (experiment_id variant metric : string)
    (value : Q) (sample_size : Z) (rows : list ResultRow) : list ResultRow :=
  if existsb (same_result_key experiment_id variant metric) rows then
    map (fun row =>
           if same_result_key experiment_id variant metric row
           then {| res_experiment_id := experiment_id; res_variant_name := variant;
                   res_metric_name := metric;
                   res_metric_value := value; res_sample_size := sample_size;
                   res_p_value := res_p_value row;
                   res_statistical_significance := res_statistical_significance row |}
           else row) rows
  else
    (rows ++ [{| res_experiment_id := experiment_id; res_variant_name := variant;
                 res_metric_name := metric;
                 res_metric_value := value; res_sample_size := sample_size;
                 res_p_value := None; res_statistical_significance := false |}])%list.

(** [_process_metric]; an exception ends the loop and is only logged. *)
Definition _process_metric (experiment_id metric : string)
    (variants : list ExperimentVariant) : M unit :=
  try_except
    (for_each variants (fun variant =>
       let variant_name := variant_name variant in
       metric_data ← hgetall (metric_key experiment_id variant_name metric);
       if (size metric_data =? 0)%nat then mret tt
       else
         metric_type ← _get_metric_type experiment_id metric;
         let metric_value := _calculate_metric_value metric_data metric_type in
         sample_size ← lift (stored_count metric_data);
         modify (set_results
                   (upsert_result experiment_id variant_name metric
                                  metric_value sample_size))))
    (fun _ => mret tt).

(** The aggregation half of [_process_experiment_data]. *)
Definition materialize (experiment_id : string) : M unit :=
  variants ← _get_experiment_variants experiment_id;
  metrics ← _get_experiment_metrics experiment_id;
  for_each metrics (fun metric =>
    _process_metric experiment_id (metric_name metric) variants).


(** The reply to a user who holds the open assignment [a]. *)
Definition already (a : AssignmentRow) : assignment_reply :=
  {| reply_variant := asg_variant_name a; reply_status := "already_assigned" |}.


(** [n] calls of [assign_user_to_variant], one after another, for the same
    user; [rs] are the draws of the successive calls. *)
Fixpoint assign_repeatedly (experiment_id user_id : string) (rs : list Q)
  : M (list assignment_reply) :=
  match rs with
  | [] => mret []
  | r :: rest =>
      reply ← assign_user_to_variant experiment_id user_id r;
      replies ← assign_repeatedly experiment_id user_id rest;
      mret (reply :: replies)
  end.

(** ** Callers that overlap

    Between the [SELECT] of [_get_user_assignment] and the [INSERT] of
    [_record_assignment] the database is free to serve other callers. A
    call in flight is therefore in one of three states, and a schedule says
    which call moves next. *)

Module Interleaving.

Inductive call :=
| Pending (r : Q)
| Chosen (variant : string)
| Returned (result : Result assignment_reply).

Definition wrap_failure {A} (res : Result A) : Result A :=
  match res with
  | Ok a => Ok a
  | Raise msg => Raise ("Failed to assign user to variant: " +:+ msg)
  end.

Definition step_call (experiment_id user_id : string) (c : call) (w : World)
  : call * World :=
  match c with
  | Pending r =>
      match assign_lookup experiment_id user_id r w with
      | (Ok (inl reply), w') => (Returned (Ok reply), w')
      | (Ok (inr variant), w') => (Chosen variant, w')
      | (Raise msg, w') => (Returned (wrap_failure (Raise msg)), w')
      end
  | Chosen variant =>
      let '(res, w') := assign_record experiment_id user_id variant w in
      (Returned (wrap_failure res), w')
  | Returned res => (Returned res, w)
  end.




End Interleaving.

(** ** Results, summary *)

Module Summary.

(** A Python [dict] with string keys, in insertion order. *)
Definition odict (V : Type) : Type := list (string * V).

Fixpoint od_get {V} (k : string) (d : odict V) : option V :=
  match d with
  | [] => None
  | (k', v) :: rest => if String.eqb k' k then Some v else od_get k rest
  end.

(** [d[k] = v]: an existing key keeps its place. *)
Fixpoint od_set {V} (k : string) (v : V) (d : odict V) : odict V :=
  match d with
  | [] => [(k, v)]
  | (k', v') :: rest =>
      if String.eqb k' k then (k', v) :: rest else (k', v') :: od_set k v rest
  end.

Record metric_entry := {
  entry_value : Q;
  entry_sample_size : Z;
  entry_p_value : option Q;
  entry_statistical_significance : bool
}.

(** The grouping loop of [get_experiment_results] over the fetched rows:
    [results[variant_name][metric_name] = {...}]. *)
Definition group_results (rows : list ResultRow) : odict (odict metric_entry) :=
  fold_left (fun results row =>
    let variant := res_variant_name row in
    let results :=
      match od_get variant results with
      | Some _ => results
      | None => od_set variant [] results
      end in
    let metrics := default [] (od_get variant results) in
    od_set variant
      (od_set (res_metric_name row)
         {| entry_value := res_metric_value row;
            entry_sample_size := res_sample_size row;
            entry_p_value := res_p_value row;
            entry_statistical_significance := res_statistical_significance row |}
         metrics)
      results) rows [].

(** [max(keys, key=...)]: the first key with the greatest value. *)
Definition best_of (metrics : odict metric_entry) : option (string * metric_entry) :=
  match metrics with
  | [] => None
  | first :: rest =>
      Some (fold_left (fun best kv =>
              if Qlt_le_dec (entry_value (snd best)) (entry_value (snd kv))
              then kv else best) rest first)
  end.

(** [_calculate_improvement]; an exception gives [0.0]. The argument is
    the dictionary the caller passes. *)
Definition _calculate_improvement (metrics : odict metric_entry) : Q :=
  match metrics with
  | [] => 0
  | (control_variant, _) :: _ =>
      match od_get control_variant metrics, best_of metrics with
      | Some control, Some (best_variant, best) =>
          let control_value := entry_value control in
          let best_value := entry_value best in
          if Qeq_bool control_value 0 then 0
          else ((best_value - control_value) / control_value) * 100
      | _, _ => 0
      end
  end%Q.

Record finding := {
  finding_metric : string;
  finding_variant : string;
  finding_improvement : Q
}.

(** The loops of [_generate_experiment_summary] that fill
    [significant_findings]. *)
Definition significant_findings (results : odict (odict metric_entry))
  : list finding :=
  flat_map (fun '(variant_name, metrics) =>
    flat_map (fun '(metric_name, metric_data) =>
      if entry_statistical_significance metric_data
      then [{| finding_metric := metric_name;
               finding_variant := variant_name;
               finding_improvement := _calculate_improvement metrics |}]
      else []) metrics) results.

(** The improvement as the specification words it, for one metric: the
    control is the first variant of the declared list, the best is the
    greatest value of the metric over the variants. *)
Definition value_of (results : odict (odict metric_entry)) (metric variant : string)
  : option Q :=
  metrics ← od_get variant results;
  entry ← od_get metric metrics;
  Some (entry_value entry).

Definition spec_improvement (declared : list ExperimentVariant)
    (results : odict (odict metric_entry)) (metric : string) : option Q :=
  control_variant ← head declared;
  control ← value_of results metric (variant_name control_variant);
  let values := omap (fun v => value_of results metric (variant_name v)) declared in
  let best := fold_left (fun b x => if Qlt_le_dec b x then x else b) values control in
  Some (if Qeq_bool control 0 then 0 else ((best - control) / control) * 100)%Q.

End Summary.

(** ** Significance of two variants

    The t-test works on floats with [math.sqrt] and [math.tanh]; here they
    are real numbers. [ZeroDivisionError] and the [ValueError] of a square
    root of a negative number are raised as in Python. *)

Module TTest.
Local Open Scope R_scope.

(** [a / b] on two Python ints *)
Definition int_div (a b : Z) : Result R :=
  if (b =? 0)%Z then Raise "ZeroDivisionError" else Ok (IZR a / IZR b).

(** [a / b] on floats *)
Definition float_div (a b : R) : Result R :=
  if Req_dec_T b 0 then Raise "ZeroDivisionError" else Ok (a / b).

(** [math.sqrt] *)
Definition math_sqrt (x : R) : Result R :=
  if Rlt_dec x 0 then Raise "ValueError" else Ok (sqrt x).

(** [_t_cdf] *)
Definition _t_cdf (x : R) (df : Z) : Result R :=
  root ← math_sqrt (IZR (df + 3));
  ratio ← float_div x root;
  Ok (0.5 + 0.5 * tanh ratio).

(** [pooled_std], the first statement of the [try] block *)
Definition pooled_std (n1 n2 : Z) : Result R :=
  ratio ← int_div ((n1 - 1) * 0 + (n2 - 1) * 0) (n1 + n2 - 2);
  math_sqrt ratio.

(** [se], the second *)
Definition standard_error (n1 n2 : Z) : Result R :=
  pooled ← pooled_std n1 n2;
  inv1 ← int_div 1 n1;
  inv2 ← int_div 1 n2;
  root ← math_sqrt (inv1 + inv2);
  Ok (pooled * root).

Definition t_test_try (mean1 : R) (n1 : Z) (mean2 : R) (n2 : Z) : Result (R * R) :=
  se ← standard_error n1 n2;
  t_stat ← (if Rlt_dec 0 se then float_div (mean1 - mean2) se else Ok 0);
  cdf ← _t_cdf (Rabs t_stat) (n1 + n2 - 2);
  let p_value := 2 * (1 - cdf) in
  Ok (t_stat, p_value).

(** [_calculate_t_test]: the pair [(t_stat, p_value)] *)
Definition _calculate_t_test (mean1 : R) (n1 : Z) (mean2 : R) (n2 : Z) : R * R :=
  match t_test_try mean1 n1 mean2 n2 with
  | Ok res => res
  | Raise _ => (0, 1)
  end.

(** An entry of [variant_data]: the materialised value and sample size. *)
Record variant_stats := {
  stats_value : R;
  stats_sample_size : Z
}.

Record test_result := {
  p_value : R;
  significant : bool;
  t_statistic : R
}.

(** The branch [len(variant_data) == 2] of [_perform_statistical_test]:
    both variants receive the same entry. *)
Definition two_variant_test (variant_a variant_b : variant_stats) : test_result :=
  let '(t_stat, p) :=
    _calculate_t_test (stats_value variant_a) (stats_sample_size variant_a)
                      (stats_value variant_b) (stats_sample_size variant_b) in
  {| p_value := p;
     significant := if Rlt_dec p 0.05 then true else false;
     t_statistic := t_stat |}.

(** The standard error the specification asks for, from the variances of
    the two samples. *)
Definition welch_standard_error (var1 : R) (n1 : Z) (var2 : R) (n2 : Z) : R :=
  sqrt (var1 / IZR n1 + var2 / IZR n2).

End TTest.

(** ** Well-formed stores

    What the service writes keeps two habits: a plain string is only ever
    stored under an [assignment:] key (the cache of [assign_user_to_variant]),
    and a hash field named [count] only ever receives the text of an
    integer. *)

Definition strings_under_assignment (r : Redis) : Prop :=
  forall k s, r !! k = Some (RString s) -> exists rest, k = "assignment:" +:+ rest.

Definition counts_are_integers (r : Redis) : Prop :=
  forall k h v, r !! k = Some (RHash h) -> h !! "count" = Some v ->
                exists z, v = RInt z.

Definition well_formed_store (r : Redis) : Prop :=
  strings_under_assignment r /\ counts_are_integers r.

(** A mapping handed to [hset] that respects the second habit. *)
Definition integer_counts (mapping : list (string * rval)) : Prop :=
  forall v, ("count", v) ∈ mapping -> exists z, v = RInt z.

Definition store_ok (w : World) : Prop := well_formed_store (redis w).

(** An operation keeps a property of the world, however it ends. *)
Definition keeps {A} (I : World -> Prop) (m : M A) : Prop :=
  forall w, I w -> I (snd (m w)).

(** The tables of the repository are the same in two worlds. *)
Definition same_tables (w w' : World) : Prop :=
  ab_experiments w' = ab_experiments w /\
  ab_assignments w' = ab_assignments w /\
  ab_events w' = ab_events w /\
  ab_results w' = ab_results w.


(** The sum [_validate_experiment_data] compares with [1.0]. *)
Definition declared_total (variants : list ExperimentVariant) : Q :=
  fold_left Qplus (map variant_weight variants) 0%Q.

(** ** Reading the counters back *)

(** The three counters of one (variant, metric) pair, read the way
    [track_event] reads them. *)
Definition read_counters (key : string) : M (Q * Z * Q) :=
  current_sum ← hget_float key "sum";
  current_count ← hget_int key "count";
  current_squared_sum ← hget_float key "squared_sum";
  mret (current_sum, current_count, current_squared_sum).


(** [event_data.get('event_value', 1.0)] *)
Definition event_amount (ev : event) : Q := default 1%Q (event_value ev).

(** The row [track_event] appends to [ab_events]. *)
Definition event_row (ev : event) : EventRow :=
  {| ev_experiment_id := event_experiment_id ev;
     ev_user_id := event_user_id ev;
     ev_variant_name := event_variant_name ev;
     ev_event_name := event_name ev |}.


(** ** What materialisation writes *)





(** ** Conclusions *)

Module Conclusions.
Import Summary.

(** The entry [get_experiment_results] builds from one fetched row. *)
Definition entry_of_row (row : ResultRow) : metric_entry :=
  {| entry_value := res_metric_value row;
     entry_sample_size := res_sample_size row;
     entry_p_value := res_p_value row;
     entry_statistical_significance := res_statistical_significance row |}.

(** [results[variant][metric]], when both keys are present. *)
Definition entry_of (results : odict (odict metric_entry)) (variant metric : string)
  : option metric_entry :=
  metrics ← od_get variant results; od_get metric metrics.

(** One pass of the grouping loop of [get_experiment_results]. *)
Definition group_step (results : odict (odict metric_entry)) (row : ResultRow)
  : odict (odict metric_entry) :=
  let variant := res_variant_name row in
  let results :=
    match od_get variant results with
    | Some _ => results
    | None => od_set variant [] results
    end in
  let metrics := default [] (od_get variant results) in
  od_set variant (od_set (res_metric_name row) (entry_of_row row) metrics) results.

(** The sum over every entry of every variant, as [sum(...)] runs it. *)
Definition total_sample_size (results : odict (odict metric_entry)) : Z :=
  fold_left Z.add
    (flat_map (fun '(_, metrics) =>
       map (fun '(_, metric) => entry_sample_size metric) metrics) results) 0.

Definition no_difference : string :=
  "No statistically significant differences found between variants".

Definition low_sample_size : string :=
  "Low sample size - results may not be statistically significant".

(** [_generate_experiment_conclusions], from the findings of the summary
    and the grouped results. [fmt] renders the improvement with one
    decimal, as the format [.1f] does. *)
Definition _generate_experiment_conclusions (fmt : Q -> string)
    (findings : list finding) (results : odict (odict metric_entry)) : list string :=
  let conclusions :=
    match findings with
    | [] => [no_difference]
    | _ =>
        map (fun f =>
               "Variant " +:+ finding_variant f +:+ " shows significant improvement "
               +:+ "(" +:+ fmt (finding_improvement f) +:+ "%) in " +:+ finding_metric f)
            findings
    end in
  if total_sample_size results <? 1000
  then (conclusions ++ [low_sample_size])%list
  else conclusions.

End Conclusions.




(** ** Sample data *)

Definition two_arms : list ExperimentVariant :=
  [ {| variant_name := "control"; variant_weight := 3 # 10; variant_description := "" |};
    {| variant_name := "treatment"; variant_weight := 7 # 10; variant_description := "" |} ].

Definition arm_a : ExperimentVariant :=
  {| variant_name := "A"; variant_weight := 1 # 2; variant_description := "" |}.

Definition arm_b : ExperimentVariant :=
  {| variant_name := "B"; variant_weight := 1 # 2; variant_description := "" |}.

Definition metric_of_type (name type : string) : ExperimentMetric :=
  {| metric_name := name; metric_type := type;
     metric_aggregation := "mean"; is_primary := true |}.

(** An experiment specification with arms [A] and [B] of equal weight and
    one primary metric. *)
Definition sample_data (metric : ExperimentMetric) : experiment_data :=
  {| d_name := Some "checkout"; d_description := None;
     d_variants := Some [arm_a; arm_b]; d_metrics := Some [metric];
     d_start_date := Some 0; d_end_date := None; d_created_by := None |}.

(** The world after [create_experiment] of that specification under the
    id [e1], and after [start_experiment]. *)
Definition created_world (metric : ExperimentMetric) : World :=
  snd (create_experiment "e1" (sample_data metric) empty_world).

Definition running_world (metric : ExperimentMetric) : World :=
  snd (start_experiment "e1" (created_world metric)).

Definition conversion : ExperimentMetric := metric_of_type "conversion" "binary".



(** The row of [ab_experiments] that specification becomes. *)
Definition sample_row (metric : ExperimentMetric) (status : string) : ExperimentRow :=
  {| exp_name := "checkout"; exp_description := ""; exp_status := status;
     exp_variants := [arm_a; arm_b]; exp_metrics := [metric];
     exp_start_date := 0; exp_end_date := None; exp_created_by := "system" |}.

(** The running experiment after user [u1] was assigned with draw [1/4]. *)
Definition assigned_world : World :=
  snd (assign_user_to_variant "e1" "u1" (1 # 4) (running_world conversion)).

(** An event of value [v] for arm [A] of experiment [e1]. *)
Definition sample_event (v : Q) : event :=
  {| event_experiment_id := "e1"; event_user_id := "u1";
     event_variant_name := "A"; event_name := "measured"; event_value := Some v |}.


(** The experiment with one metric [latency] of the given type, after the
    events [1, 2, 3, 4, 5] and one materialisation. *)
Definition latency (type : string) : ExperimentMetric := metric_of_type "latency" type.


(** The experiment with the binary metric [conversion] after one event of
    value [1] for arm [A]. *)
Definition converted_world : World :=
  snd (track_event 0 (sample_event 1) (running_world conversion)).


(** The rows [get_experiment_results] fetches when arm [A], the control,
    converts at 0.3 and arm [B] at 0.6, both flagged significant. *)
Definition fetched_rows : list ResultRow :=
  [ {| res_experiment_id := "e1"; res_variant_name := "A";
       res_metric_name := "conversion"; res_metric_value := 3 # 10;
       res_sample_size := 100; res_p_value := Some (1 # 100);
       res_statistical_significance := true |};
    {| res_experiment_id := "e1"; res_variant_name := "B";
       res_metric_name := "conversion"; res_metric_value := 6 # 10;
       res_sample_size := 100; res_p_value := Some (1 # 100);
       res_statistical_significance := true |} ].

(** The running experiment once completed. *)
Definition completed_world : World :=
  snd (complete_experiment "e1" (running_world conversion)).



Definition colour : ExperimentMetric := metric_of_type "colour" "categorical".


(** An arm without traffic ahead of an arm with all of it. *)
Definition idle_arm : ExperimentVariant :=
  {| variant_name := "idle"; variant_weight := 0; variant_description := "" |}.

Definition idle_first : list ExperimentVariant :=
  [ idle_arm;
    {| variant_name := "all"; variant_weight := 1; variant_description := "" |} ].
(** ** Properties of the selection *)

Module SelectFacts.
Import Select.

Lemma length_cumulative_weights ws : forall s,
  length (cumulative_weights s ws) = length ws.
Proof. induction ws as [|w ws IH]; intros s; simpl; [done|]. by rewrite IH. Qed.

Lemma cumulative_weights_lookup vs : forall s j c,
  cumulative_weights s (map variant_weight vs) !! j = Some c ->
  (c == s + cumulative_weight vs j)%Q.
Proof.
  induction vs as [|v vs IH]; intros s j c; simpl; [done|].
  destruct j as [|j]; simpl.
  - intros [= <-]. unfold cumulative_weight. simpl. rewrite ?take_0. simpl. ring.
  - intros H. apply IH in H. rewrite H.
    unfold cumulative_weight. simpl. ring.
Qed.



(** What the search loop returns. *)
Lemma find_index_Some x cws : forall i k,
  find_index x i cws = Some k ->
  exists j c, k = (i + j)%nat /\ cws !! j = Some c /\ (x <= c)%Q /\
    forall j' c', (j' < j)%nat -> cws !! j' = Some c' -> ~ (x <= c')%Q.
Proof.
  induction cws as [|cw cws IH]; intros i k; simpl; [done|].
  destruct (Qle_bool x cw) eqn:E.
  - intros [= <-]. exists 0%nat, cw. repeat split; [lia|by apply Qle_bool_iff|].
    intros j' c' Hj. lia.
  - intros H. apply IH in H as (j & c & -> & Hl & Hle & Hmin).
    exists (S j), c. repeat split; [lia|done|done|].
    intros [|j'] c' Hj; simpl.
    + intros [= <-] Hx. apply Qle_bool_iff in Hx. congruence.
    + apply Hmin. lia.
Qed.


Lemma name_last_elem vs :
  vs <> [] -> exists v, v ∈ vs /\ last vs = Some v /\ name_last vs = Ok (variant_name v).
Proof.
  intros Hne. destruct (last vs) as [v|] eqn:E.
  - exists v. split; [|split; [done|]].
    + rewrite last_lookup in E. by eapply list_elem_of_lookup_2.
    + unfold name_last. by rewrite E.
  - apply last_None in E. done.
Qed.

End SelectFacts.

Module SelectTheorems.
Import Select SelectFacts.




(** On a non-empty list the [try] block succeeds with the name of a
    member, and the fallback after the loop is the last variant. *)
Lemma select_try_member vs r :
  vs <> [] ->
  (exists v, v ∈ vs /\ select_try vs r = Ok (variant_name v)) /\
  (find_index (r * final_sum 0 (map variant_weight vs)) 0
     (cumulative_weights 0 (map variant_weight vs)) = None ->
   exists v, last vs = Some v /\ select_try vs r = Ok (variant_name v)).
Proof.
  intros Hne.
  destruct (name_last_elem vs Hne) as (vl & Hin & Hlast & Hname).
  split.
  - unfold select_try.
    destruct (find_index _ 0 _) as [k|] eqn:E.
    + apply find_index_Some in E as (j & c & -> & Hc & _). simpl.
      apply lookup_lt_Some in Hc.
      rewrite length_cumulative_weights, length_map in Hc.
      apply lookup_lt_is_Some_2 in Hc as [v Hv].
      exists v. split; [by eapply list_elem_of_lookup_2|].
      unfold name_at. by rewrite Hv.
    + by exists vl.
  - intros E. exists vl. split; [done|].
    unfold select_try. by rewrite E.
Qed.


(** C10. On a non-empty variant list [_select_variant_by_weight] raises
    nothing and returns the name of a variant of the list, whatever the
    weights and the draw: the [try] block itself succeeds, so the handler
    that would answer with the first variant is not entered; and when no
    cumulative weight reaches the draw the name is that of the last
    variant. *)
Theorem select_total_and_closed (vs : list ExperimentVariant) (r : Q) :
  vs <> [] ->
  (exists v, v ∈ vs /\ select_try vs r = Ok (variant_name v) /\
             _select_variant_by_weight vs r = Ok (variant_name v)) /\
  (find_index (r * final_sum 0 (map variant_weight vs)) 0
     (cumulative_weights 0 (map variant_weight vs)) = None ->
   exists v, last vs = Some v /\ _select_variant_by_weight vs r = Ok (variant_name v)).
Proof.
  intros Hne. destruct (select_try_member vs r Hne) as [(v & Hin & Hv) Hfall].
  split.
  - exists v. split; [done|split; [done|]].
    unfold _select_variant_by_weight. by rewrite Hv.
  - intros E. destruct (Hfall E) as (vl & Hlast & Hl).
    exists vl. split; [done|]. unfold _select_variant_by_weight. by rewrite Hl.
Qed.

Lemma select_total_and_closed_witness :
  (exists v, v ∈ two_arms /\ select_try two_arms (9 # 10) = Ok (variant_name v) /\
             _select_variant_by_weight two_arms (9 # 10) = Ok (variant_name v)) /\
  (find_index ((9 # 10) * final_sum 0 (map variant_weight two_arms)) 0
     (cumulative_weights 0 (map variant_weight two_arms)) = None ->
   exists v, last two_arms = Some v /\
             _select_variant_by_weight two_arms (9 # 10) = Ok (variant_name v)).
Proof.
  apply (select_total_and_closed two_arms (9 # 10)). discriminate.
Defined.

(** The fallback after the loop at work: with a draw beyond the ladder no
    cumulative weight matches and the last variant is returned. *)
Example select_fallback_last :
  find_index (2 * final_sum 0 (map variant_weight two_arms)) 0
    (cumulative_weights 0 (map variant_weight two_arms)) = None /\
  _select_variant_by_weight two_arms 2 = Ok "treatment".
Proof. split; vm_compute; reflexivity. Qed.

End SelectTheorems.

(** ** Running an operation *)

Lemma bind_run {A B} (m : M A) (k : A -> M B) (w : World) :
  (m ≫= k) w =
  match m w with
  | (Ok a, w') => k a w'
  | (Raise msg, w') => (Raise msg, w')
  end.
Proof. reflexivity. Qed.

Lemma bind_ok {A B} (m : M A) (k : A -> M B) (w w' : World) (a : A) :
  m w = (Ok a, w') -> (m ≫= k) w = k a w'.
Proof. intros H. by rewrite bind_run, H. Qed.


Ltac run_m :=
  repeat (unfold mbind, mret, M_bind, M_ret, Result_bind, Result_ret,
            gets, modify, raise, lift, try_except; simpl).

(** ** Lifecycle *)

Module LifecycleTheorems.

(** [complete_experiment] on a stored experiment: always succeeds. *)
Lemma complete_experiment_stored w id row :
  ab_experiments w !! id = Some row ->
  exists w',
    complete_experiment id w = (Ok "completed", w') /\
    ab_experiments w' !! id = Some (with_status (status_value COMPLETED) row) /\
    redis w' = redis w /\ ab_assignments w' = ab_assignments w.
Proof.
  intros Hrow. eexists. split; [reflexivity|]. simpl.
  rewrite lookup_alter_eq, Hrow. done.
Qed.

(** C7, as the code runs it. [complete_experiment] checks no state: on an
    experiment whose status is [draft], [completed] or [cancelled] it
    returns normally and the stored status becomes [completed]. *)
Theorem complete_from_any_state (w : World) (id : string) (row : ExperimentRow)
    (st : ExperimentStatus) :
  ab_experiments w !! id = Some row ->
  exp_status row = status_value st ->
  st = DRAFT \/ st = COMPLETED \/ st = CANCELLED ->
  exists w' row',
    complete_experiment id w = (Ok "completed", w') /\
    ab_experiments w' !! id = Some row' /\
    exp_status row' = "completed".
Proof.
  intros Hrow _ _.
  destruct (complete_experiment_stored w id row Hrow) as (w' & Hrun & Hrow' & _).
  exists w', (with_status (status_value COMPLETED) row). done.
Qed.

Lemma complete_from_any_state_witness :
  exists w' row',
    complete_experiment "e1" (created_world conversion)
      = (Ok "completed", w') /\
    ab_experiments w' !! "e1" = Some row' /\
    exp_status row' = "completed".
Proof.
  apply (complete_from_any_state (created_world conversion) "e1"
           (sample_row conversion "draft") DRAFT).
  - vm_compute. reflexivity.
  - reflexivity.
  - left. reflexivity.
Defined.

(** The sibling operations do check the state: [pause_experiment] on a
    draft experiment raises and leaves the row as it is. *)
Lemma pause_checks_state w id row :
  ab_experiments w !! id = Some row ->
  exp_status row <> "running" ->
  exists msg, pause_experiment id w = (Raise msg, w).
Proof.
  intros Hrow Hst. unfold pause_experiment, _get_experiment. run_m.
  rewrite Hrow.
  destruct (String.eqb_spec (exp_status row) "running") as [E|E]; [done|].
  simpl. by eexists.
Qed.

End LifecycleTheorems.

(** ** Assignment *)

Module AssignTheorems.
Import Interleaving.

#[local] Arguments Select._select_variant_by_weight : simpl never.

(** A running experiment and an open assignment: the call answers with it
    and writes nothing. *)
Lemma assign_existing w e u a row r :
  ab_experiments w !! e = Some row ->
  exp_status row = status_value RUNNING ->
  find (open_assignment_of e u) (ab_assignments w) = Some a ->
  assign_user_to_variant e u r w = (Ok (already a), w).
Proof.
  intros Hrow Hst Hopen.
  unfold assign_user_to_variant, assign_lookup, _get_experiment, _get_user_assignment.
  run_m. rewrite Hrow, Hst. simpl. by rewrite Hopen.
Qed.

(** Whatever the state of the experiment, a call for a user with an open
    assignment leaves the world as it was. *)
Lemma assign_open_no_write w e u a r :
  find (open_assignment_of e u) (ab_assignments w) = Some a ->
  snd (assign_user_to_variant e u r w) = w /\
  forall reply, fst (assign_user_to_variant e u r w) = Ok reply ->
                reply = already a.
Proof.
  intros Hopen.
  unfold assign_user_to_variant, assign_lookup, _get_experiment, _get_user_assignment.
  run_m. destruct (ab_experiments w !! e) as [row|]; simpl; [|done].
  destruct (negb _); simpl; [done|]. rewrite Hopen. simpl.
  split; [done|]. by intros reply [= <-].
Qed.

Lemma assign_repeatedly_existing w e u a row rs :
  ab_experiments w !! e = Some row ->
  exp_status row = status_value RUNNING ->
  find (open_assignment_of e u) (ab_assignments w) = Some a ->
  assign_repeatedly e u rs w = (Ok (map (fun _ => already a) rs), w).
Proof.
  intros Hrow Hst Hopen. induction rs as [|r rs IH]; [done|].
  simpl. erewrite bind_ok by (by eapply assign_existing).
  erewrite bind_ok by exact IH. done.
Qed.

(** C3. When the (experiment, user) pair has an open assignment, a call to
    [assign_user_to_variant] creates no record and changes nothing else,
    and whenever it returns a reply the reply carries that assignment's
    variant; on a running experiment it does return, so any number of
    calls in a row all answer with that same variant. *)
Theorem assign_idempotent (w : World) (e u : string) (a : AssignmentRow) :
  find (open_assignment_of e u) (ab_assignments w) = Some a ->
  (forall r,
     snd (assign_user_to_variant e u r w) = w /\
     forall reply, fst (assign_user_to_variant e u r w) = Ok reply ->
                   reply_variant reply = asg_variant_name a) /\
  (forall row rs,
     ab_experiments w !! e = Some row ->
     exp_status row = status_value RUNNING ->
     assign_repeatedly e u rs w = (Ok (map (fun _ => already a) rs), w)).
Proof.
  intros Hopen. split.
  - intros r. destruct (assign_open_no_write w e u a r Hopen) as [Hw Hr].
    split; [done|]. intros reply H. by rewrite (Hr reply H).
  - intros row rs Hrow Hst. by eapply assign_repeatedly_existing.
Qed.

Lemma assign_idempotent_witness :
  (forall r,
     snd (assign_user_to_variant "e1" "u1" r assigned_world) = assigned_world /\
     forall reply, fst (assign_user_to_variant "e1" "u1" r assigned_world) = Ok reply ->
                   reply_variant reply = "A") /\
  (forall rs,
     assign_repeatedly "e1" "u1" rs assigned_world
       = (Ok (map (fun _ => already (new_row "e1" "u1" "A")) rs), assigned_world)).
Proof.
  destruct (assign_idempotent assigned_world "e1" "u1" (new_row "e1" "u1" "A"))
    as [Hcall Hcalls].
  - vm_compute. reflexivity.
  - split; [exact Hcall|]. intros rs.
    apply (Hcalls (sample_row conversion "running") rs).
    + vm_compute. reflexivity.
    + reflexivity.
Defined.

(** *** First-time calls *)




(** The two halves of a call, run one after the other, are the call. *)
Lemma steps_are_the_call e u r w :
  let '(c1, w1) := step_call e u (Pending r) w in
  let '(c2, w2) := step_call e u c1 w1 in
  (c2, w2) = (Returned (fst (assign_user_to_variant e u r w)),
              snd (assign_user_to_variant e u r w)).
Proof.
  unfold step_call, assign_user_to_variant. run_m.
  destruct (assign_lookup e u r w) as [[[reply|v]|msg] w1]; simpl; done.
Qed.



End AssignTheorems.

(** ** Creation and the Metric Store *)

Module CreateTheorems.









End CreateTheorems.

(** ** Counters and materialised values *)

Module MetricTheorems.





(** *** One event on one metric *)

(** Reading a field of a hash that was just written with one field. *)
Lemma hget_after_hset key field v w w' :
  hset key field v w = (Ok tt, w') ->
  hget key field w' = (Ok (Some v), w') /\
  (forall f, f <> field -> fst (hget key f w') = fst (hget key f w)) /\
  ab_experiments w' = ab_experiments w.
Proof.
  unfold hset, hset_mapping, hget. run_m.
  destruct (redis w !! key) as [[h|s]|] eqn:E; simpl; intros [= <-]; simpl.
  - rewrite !lookup_insert_eq. split; [|split; [|done]].
    + f_equal. f_equal. apply lookup_union_Some_l. apply lookup_insert_eq.
    + intros f Hf. f_equal. rewrite lookup_union_r; [done|].
      rewrite lookup_insert_ne by done. done.
  - rewrite !lookup_insert_eq. split; [|split; [|done]].
    + done.
    + intros f Hf. simpl. by rewrite lookup_insert_ne.
Qed.

(** A read that succeeded tells that the key holds no plain string, so a
    write to that key succeeds. *)
Lemma hset_after_hget key f field v w x :
  fst (hget key f w) = Ok x ->
  exists w', hset key field v w = (Ok tt, w').
Proof.
  unfold hset, hset_mapping, hget. run_m.
  destruct (redis w !! key) as [[h|s]|] eqn:E; simpl; [by eexists|done|by eexists].
Qed.

Lemma hget_world key f w : snd (hget key f w) = w.
Proof.
  unfold hget. run_m. by destruct (redis w !! key) as [[h|s]|].
Qed.

Lemma hget_float_run key f w s :
  fst (hget_float key f w) = Ok s ->
  hget_float key f w = (Ok s, w) /\ exists x, fst (hget key f w) = Ok x.
Proof.
  unfold hget_float. rewrite bind_run.
  pose proof (hget_world key f w) as Hw.
  destruct (hget key f w) as [[x|msg] w0]; simpl in *; subst w0; [|done].
  intros [= <-]. split; [done|by eexists].
Qed.

Lemma hget_int_run key f w c :
  fst (hget_int key f w) = Ok c ->
  hget_int key f w = (Ok c, w).
Proof.
  unfold hget_int. rewrite bind_run.
  pose proof (hget_world key f w) as Hw.
  destruct (hget key f w) as [[x|msg] w0]; simpl in *; subst w0; [|done].
  unfold lift. simpl. by intros ->.
Qed.

Lemma hget_run key f w x :
  fst (hget key f w) = Ok x -> hget key f w = (Ok x, w).
Proof.
  intros H. pose proof (hget_world key f w) as Hw.
  destruct (hget key f w) as [r w0]. simpl in *. by subst.
Qed.

Lemma hget_float_of key f w x :
  fst (hget key f w) = Ok x ->
  fst (hget_float key f w)
    = Ok (match x with Some y => py_float y | None => 0%Q end).
Proof.
  intros H. apply hget_run in H. unfold hget_float. by erewrite bind_ok by exact H.
Qed.

Lemma hget_int_of key f w x :
  fst (hget key f w) = Ok x ->
  fst (hget_int key f w) = match x with Some y => py_int y | None => Ok 0 end.
Proof.
  intros H. apply hget_run in H. unfold hget_int. by erewrite bind_ok by exact H.
Qed.

(** The two writes shared by the numerical and the binary branch. *)
Lemma sum_and_count_written key s c v w :
  fst (hget_float key "sum" w) = Ok s ->
  fst (hget_int key "count" w) = Ok c ->
  exists w1 w2,
    hset key "sum" (RFloat (s + v)) w = (Ok tt, w1) /\
    hset key "count" (RInt (c + 1)) w1 = (Ok tt, w2) /\
    fst (hget_float key "sum" w2) = Ok (s + v)%Q /\
    fst (hget_int key "count" w2) = Ok (c + 1) /\
    fst (hget key "squared_sum" w2) = fst (hget key "squared_sum" w).
Proof.
  intros Hs Hc.
  destruct (hget_float_run _ _ _ _ Hs) as [_ [x Hx]].
  destruct (hset_after_hget key "sum" "sum" (RFloat (s + v)) w x Hx) as [w1 H1].
  destruct (hget_after_hset _ _ _ _ _ H1) as (Hr1 & Hk1 & _).
  destruct (hset_after_hget key "sum" "count" (RInt (c + 1)) w1 _
              (f_equal fst Hr1)) as [w2 H2].
  destruct (hget_after_hset _ _ _ _ _ H2) as (Hr2 & Hk2 & _).
  exists w1, w2. split; [done|]. split; [done|]. split; [|split].
  - rewrite (hget_float_of key "sum" w2 (Some (RFloat (s + v)))); [done|].
    rewrite Hk2 by done. by rewrite Hr1.
  - rewrite (hget_int_of key "count" w2 (Some (RInt (c + 1)))); [done|].
    by rewrite Hr2.
  - rewrite Hk2 by done. by rewrite Hk1.
Qed.

(** The numerical and rate branch also adds the square. *)
Lemma numerical_update_counters w e variant v s c q metric :
  metric_type metric = "numerical" \/ metric_type metric = "rate" ->
  fst (hget_float (metric_key e variant (metric_name metric)) "sum" w) = Ok s ->
  fst (hget_int (metric_key e variant (metric_name metric)) "count" w) = Ok c ->
  fst (hget_float (metric_key e variant (metric_name metric)) "squared_sum" w) = Ok q ->
  exists w',
    update_metric e variant v metric w = (Ok tt, w') /\
    fst (hget_float (metric_key e variant (metric_name metric)) "squared_sum" w')
      = Ok (q + v ^ 2)%Q.
Proof.
  intros Hmt Hs Hc Hq.
  destruct (sum_and_count_written _ s c v w Hs Hc) as (w1 & w2 & H1 & H2 & _ & _ & Hsq).
  assert (Hq2 : hget_float (metric_key e variant (metric_name metric)) "squared_sum" w2
                = (Ok q, w2)).
  { apply hget_float_run. unfold hget_float in *. rewrite bind_run in *.
    pose proof (hget_world (metric_key e variant (metric_name metric)) "squared_sum" w2).
    pose proof (hget_world (metric_key e variant (metric_name metric)) "squared_sum" w).
    destruct (hget _ "squared_sum" w2) as [r2 ?], (hget _ "squared_sum" w) as [r0 ?].
    simpl in *. subst. by destruct r0. }
  destruct (hget_float_run _ _ _ _ (f_equal fst Hq2)) as [_ [x Hx]].
  destruct (hset_after_hget _ "squared_sum" "squared_sum" (RFloat (q + v ^ 2)) w2 x Hx)
    as [w3 H3].
  destruct (hget_after_hset _ _ _ _ _ H3) as (Hr3 & _ & _).
  exists w3. split.
  - unfold update_metric.
    assert (String.eqb (metric_type metric) "numerical"
            || String.eqb (metric_type metric) "rate" = true) as ->.
    { by destruct Hmt as [-> | ->]. }
    erewrite bind_ok by (by apply hget_float_run).
    erewrite bind_ok by (by apply hget_int_run).
    erewrite bind_ok by exact H1. erewrite bind_ok by exact H2.
    erewrite bind_ok by exact Hq2. exact H3.
  - rewrite (hget_float_of _ "squared_sum" w3 (Some (RFloat (q + v ^ 2))));
      [done|by rewrite Hr3].
Qed.



End MetricTheorems.

(** ** The t-test *)

Module TTestTheorems.
Import TTest.
Local Open Scope R_scope.

Lemma tanh_0 : tanh 0 = 0.
Proof. unfold tanh. rewrite sinh_0. unfold Rdiv. apply Rmult_0_l. Qed.

Lemma math_sqrt_0 : math_sqrt 0 = Ok 0.
Proof.
  unfold math_sqrt. destruct (Rlt_dec 0 0) as [H|H]; [lra|]. by rewrite sqrt_0.
Qed.

(** The numerator of the pooled variance is a sum of products by [0]. *)
Lemma pooled_std_zero n1 n2 p : pooled_std n1 n2 = Ok p -> p = 0.
Proof.
  unfold pooled_std, int_div.
  replace ((n1 - 1) * 0 + (n2 - 1) * 0)%Z with 0%Z by lia.
  destruct (n1 + n2 - 2 =? 0)%Z; [done|]. simpl.
  unfold Rdiv. rewrite Rmult_0_l, math_sqrt_0. by intros [= <-].
Qed.

Lemma standard_error_zero n1 n2 se : standard_error n1 n2 = Ok se -> se = 0.
Proof.
  unfold standard_error.
  destruct (pooled_std n1 n2) as [p|msg] eqn:Hp; [|done]. simpl.
  apply pooled_std_zero in Hp as ->.
  destruct (int_div 1 n1) as [inv1|]; [|done]. simpl.
  destruct (int_div 1 n2) as [inv2|]; [|done]. simpl.
  destruct (math_sqrt (inv1 + inv2)) as [root|]; [|done]. simpl.
  intros [= <-]. apply Rmult_0_l.
Qed.

(** With a zero statistic the approximate CDF is one half. *)
Lemma t_cdf_at_zero df c : _t_cdf (Rabs 0) df = Ok c -> 2 * (1 - c) = 1.
Proof.
  unfold _t_cdf.
  destruct (math_sqrt (IZR (df + 3))) as [root|]; [|done]. simpl.
  unfold float_div. destruct (Req_dec_T root 0); [done|]. simpl.
  intros [= <-]. rewrite Rabs_R0. unfold Rdiv at 1. rewrite Rmult_0_l, tanh_0. lra.
Qed.

Lemma calculate_t_test_constant mean1 n1 mean2 n2 :
  _calculate_t_test mean1 n1 mean2 n2 = (0, 1).
Proof.
  unfold _calculate_t_test, t_test_try.
  destruct (standard_error n1 n2) as [se|] eqn:Hse; [|done]. simpl.
  apply standard_error_zero in Hse as ->.
  destruct (Rlt_dec 0 0) as [H|_]; [lra|]. simpl.
  destruct (_t_cdf (Rabs 0) (n1 + n2 - 2)) as [c|] eqn:Hc; [|done]. simpl.
  apply t_cdf_at_zero in Hc. by rewrite Hc.
Qed.

(** C1, as the code runs it. [_calculate_t_test] receives no variance: its
    pooled term multiplies by [0], so the standard error, whenever it is
    computed, is [0]; the statistic is then [0] and the p-value [1] for all
    means and sample sizes, and no pair of variants is ever significant.
    For two samples of five with variance [2] each, the standard error of
    the specification is not [0], the one of the code is. *)
Theorem t_test_ignores_variance (mean1 mean2 : R) (n1 n2 : Z) :
  match standard_error n1 n2 with
  | Ok se => se = 0
  | Raise _ => True
  end /\
  _calculate_t_test mean1 n1 mean2 n2 = (0, 1) /\
  significant (two_variant_test
                 {| stats_value := mean1; stats_sample_size := n1 |}
                 {| stats_value := mean2; stats_sample_size := n2 |}) = false /\
  standard_error 5 5 = Ok 0 /\
  welch_standard_error 2 5 2 5 <> 0.
Proof.
  split; [|split; [|split; [|split]]].
  - destruct (standard_error n1 n2) as [se|] eqn:Hse; [|done].
    by apply standard_error_zero in Hse.
  - apply calculate_t_test_constant.
  - unfold two_variant_test. simpl. rewrite calculate_t_test_constant.
    simpl. destruct (Rlt_dec 1 0.05) as [H|_]; [lra|done].
  - destruct (standard_error 5 5) as [se|msg] eqn:Hse.
    + by apply standard_error_zero in Hse as ->.
    + exfalso. revert Hse. unfold standard_error, pooled_std, int_div. simpl.
      change ((5 - 1) * 0 + (5 - 1) * 0)%Z with 0%Z.
      assert (E : 0 / IZR (5 + 5 - 2) = 0) by (unfold Rdiv; apply Rmult_0_l).
      rewrite E, math_sqrt_0. simpl.
      unfold math_sqrt. destruct (Rlt_dec _ 0) as [H|_]; [lra|done].
  - unfold welch_standard_error. apply Rgt_not_eq. apply sqrt_lt_R0. lra.
Qed.

End TTestTheorems.

(** ** Summary *)

Module SummaryTheorems.
Import Summary.

(** [_calculate_improvement] sees the metrics of one variant only. When
    that variant has a single metric, control and best are the same entry
    and the improvement is zero. *)
Lemma improvement_single_metric name entry :
  (_calculate_improvement [(name, entry)] == 0)%Q.
Proof.
  unfold _calculate_improvement. simpl. rewrite String.eqb_refl.
  destruct (Qeq_bool (entry_value entry) 0) eqn:E; [reflexivity|].
  apply Qeq_bool_neq in E. field. exact E.
Qed.

(** C8, as the code runs it. Arm [A], first of the declared list, has value
    0.3 and arm [B] 0.6 on the primary metric, both rows significant. The
    summary reports two findings, each with improvement 0: the function is
    handed the metrics of the finding's own variant, so its control and its
    best are both that variant's value. Against the control [A] the
    improvement of the best arm is 100 percent. *)
Theorem improvement_compares_within_variant :
  let results := group_results fetched_rows in
  map (fun f => (finding_metric f, finding_variant f)) (significant_findings results)
    = [("conversion", "A"); ("conversion", "B")] /\
  Forall (fun f => (finding_improvement f == 0)%Q) (significant_findings results) /\
  exists q, spec_improvement [arm_a; arm_b] results "conversion" = Some q /\
            (q == 100)%Q.
Proof.
  simpl. split; [vm_compute; reflexivity|]. split.
  - repeat constructor; vm_compute; reflexivity.
  - eexists. split; [vm_compute; reflexivity|]. vm_compute. reflexivity.
Qed.

End SummaryTheorems.

(** ** The state machine *)

Module LifecycleExtras.

Lemma with_status_same row : with_status (exp_status row) row = row.
Proof. by destruct row. Qed.

Lemma with_status_twice s1 s2 row :
  with_status s2 (with_status s1 row) = with_status s2 row.
Proof. by destruct row. Qed.


Lemma alter_status_back (m : gmap string ExperimentRow) id row s :
  m !! id = Some row ->
  alter (with_status (exp_status row)) id (alter (with_status s) id m) = m.
Proof.
  intros Hrow. apply map_eq. intros k. destruct (decide (k = id)) as [->|Hne].
  - rewrite !lookup_alter_eq, Hrow. simpl.
    by rewrite with_status_twice, with_status_same.
  - by rewrite !lookup_alter_ne.
Qed.

Lemma wrong_status_raises w id row :
  ab_experiments w !! id = Some row ->
  (exp_status row <> "draft" ->
   start_experiment id w
     = (Raise "Failed to start experiment: Experiment is not in draft state", w)) /\
  (exp_status row <> "running" ->
   pause_experiment id w
     = (Raise "Failed to pause experiment: Experiment is not running", w)) /\
  (exp_status row <> "paused" ->
   resume_experiment id w
     = (Raise "Failed to resume experiment: Experiment is not paused", w)).
Proof.
  intros Hrow. repeat split; intros Hst.
  all: unfold start_experiment, pause_experiment, resume_experiment, _get_experiment.
  all: run_m; rewrite Hrow.
  all: match goal with
       | |- context [String.eqb ?a ?b] => destruct (String.eqb_spec a b); [done|]
       end.
  all: reflexivity.
Qed.

(** X1. [start_experiment], [pause_experiment] and [resume_experiment] on a
    stored experiment whose status is not the one they expect ([draft],
    [running], [paused]) raise and leave the world exactly as it was. *)
Theorem transitions_check_status (w : World) (id : string) (row : ExperimentRow) :
  ab_experiments w !! id = Some row ->
  (exp_status row <> "draft" ->
   start_experiment id w
     = (Raise "Failed to start experiment: Experiment is not in draft state", w)) /\
  (exp_status row <> "running" ->
   pause_experiment id w
     = (Raise "Failed to pause experiment: Experiment is not running", w)) /\
  (exp_status row <> "paused" ->
   resume_experiment id w
     = (Raise "Failed to resume experiment: Experiment is not paused", w)).
Proof. apply wrong_status_raises. Qed.

Lemma transitions_check_status_witness :
  start_experiment "e1" completed_world
    = (Raise "Failed to start experiment: Experiment is not in draft state",
       completed_world) /\
  pause_experiment "e1" completed_world
    = (Raise "Failed to pause experiment: Experiment is not running",
       completed_world) /\
  resume_experiment "e1" completed_world
    = (Raise "Failed to resume experiment: Experiment is not paused",
       completed_world).
Proof.
  destruct (transitions_check_status completed_world "e1"
              (sample_row conversion "completed")) as (Hs & Hp & Hr).
  - vm_compute. reflexivity.
  - split; [apply Hs; discriminate|]. split; [apply Hp|apply Hr]; discriminate.
Defined.




Lemma update_status_back w id row s :
  ab_experiments w !! id = Some row ->
  set_experiments (alter (with_status (exp_status row)) id)
    (set_experiments (alter (with_status s) id) w) = w.
Proof.
  intros Hrow. destruct w as [exps asg evs res rd]. unfold set_experiments. simpl in *.
  f_equal. by apply alter_status_back.
Qed.

Lemma update_status_same w id row :
  ab_experiments w !! id = Some row ->
  set_experiments (alter (with_status (exp_status row)) id) w = w.
Proof.
  intros Hrow. destruct w as [exps asg evs res rd]. unfold set_experiments. simpl in *.
  f_equal. apply map_eq. intros k. destruct (decide (k = id)) as [->|Hne].
  - rewrite lookup_alter_eq, Hrow. simpl. by rewrite with_status_same.
  - by rewrite lookup_alter_ne.
Qed.

(** X3. Pausing a running experiment and resuming it gives back the very
    world it started from: both calls succeed, and the stored experiment,
    the assignments, the events, the results and every counter of the
    Metric Store are as before the pause. In between, the status is
    [paused] and nothing but the status has changed. *)
Theorem pause_resume_round_trip (w : World) (id : string) (row : ExperimentRow) :
  ab_experiments w !! id = Some row ->
  exp_status row = "running" ->
  exists w1,
    pause_experiment id w = (Ok "paused", w1) /\
    ab_experiments w1 !! id = Some (with_status "paused" row) /\
    redis w1 = redis w /\
    ab_assignments w1 = ab_assignments w /\
    resume_experiment id w1 = (Ok "resumed", w).
Proof.
  intros Hrow Hst. eexists. split; [|split; [|split; [|split]]].
  - unfold pause_experiment, _get_experiment, update_status. run_m.
    rewrite Hrow, Hst. reflexivity.
  - simpl. by rewrite lookup_alter_eq, Hrow.
  - reflexivity.
  - reflexivity.
  - unfold resume_experiment, _get_experiment, update_status. run_m.
    rewrite lookup_alter_eq, Hrow. simpl. f_equal.
    rewrite <- Hst. by apply update_status_back.
Qed.

Lemma pause_resume_round_trip_witness :
  exists w1,
    pause_experiment "e1" converted_world = (Ok "paused", w1) /\
    ab_experiments w1 !! "e1" = Some (with_status "paused" (sample_row conversion "running")) /\
    redis w1 = redis converted_world /\
    ab_assignments w1 = ab_assignments converted_world /\
    resume_experiment "e1" w1 = (Ok "resumed", converted_world).
Proof.
  apply (pause_resume_round_trip converted_world "e1" (sample_row conversion "running")).
  - vm_compute. reflexivity.
  - reflexivity.
Defined.

(** X4. A completed experiment is terminal for every operation that checks
    the status: once [complete_experiment] has run on a stored experiment,
    [start_experiment], [pause_experiment], [resume_experiment] and
    [assign_user_to_variant] all raise and leave the world untouched, and
    completing again changes nothing. *)
Theorem completed_is_terminal (w : World) (id u : string) (row : ExperimentRow) (r : Q) :
  ab_experiments w !! id = Some row ->
  exists w',
    complete_experiment id w = (Ok "completed", w') /\
    (exists msg, start_experiment id w' = (Raise msg, w')) /\
    (exists msg, pause_experiment id w' = (Raise msg, w')) /\
    (exists msg, resume_experiment id w' = (Raise msg, w')) /\
    (exists msg, assign_user_to_variant id u r w' = (Raise msg, w')) /\
    complete_experiment id w' = (Ok "completed", w').
Proof.
  intros Hrow. eexists. split; [reflexivity|].
  set (w' := (set_experiments _ w)).
  assert (Hrow' : ab_experiments w' !! id = Some (with_status "completed" row)).
  { subst w'. simpl. by rewrite lookup_alter_eq, Hrow. }
  clearbody w'.
  destruct (wrong_status_raises w' id _ Hrow') as (Hs & Hp & Hr).
  repeat split.
  - eexists. by apply Hs.
  - eexists. by apply Hp.
  - eexists. by apply Hr.
  - unfold assign_user_to_variant, assign_lookup, _get_experiment. run_m.
    rewrite Hrow'. by eexists.
  - unfold complete_experiment, _complete_experiment, update_status. run_m.
    f_equal. by apply (update_status_same w' id (with_status "completed" row)).
Qed.

Lemma completed_is_terminal_witness :
  exists w',
    complete_experiment "e1" converted_world = (Ok "completed", w') /\
    (exists msg, start_experiment "e1" w' = (Raise msg, w')) /\
    (exists msg, pause_experiment "e1" w' = (Raise msg, w')) /\
    (exists msg, resume_experiment "e1" w' = (Raise msg, w')) /\
    (exists msg, assign_user_to_variant "e1" "u1" (1 # 2) w' = (Raise msg, w')) /\
    complete_experiment "e1" w' = (Ok "completed", w').
Proof.
  apply (completed_is_terminal converted_world "e1" "u1"
           (sample_row conversion "running") (1 # 2)).
  vm_compute. reflexivity.
Defined.
End LifecycleExtras.

(** ** The store under the service's writes *)

Module StoreFacts.

Lemma same_tables_refl w : same_tables w w.
Proof. by repeat split. Qed.

Lemma same_tables_trans w1 w2 w3 :
  same_tables w1 w2 -> same_tables w2 w3 -> same_tables w1 w3.
Proof. intros (?&?&?&?) (?&?&?&?). repeat split; congruence. Qed.

(** A loop keeps what each pass keeps, however it ends. *)
Lemma for_each_keeps {A} (xs : list A) (body : A -> M unit) (I : World -> Prop) :
  (forall x w, x ∈ xs -> I w -> I (snd (body x w))) ->
  forall w, I w -> I (snd (for_each xs body w)).
Proof.
  induction xs as [|x xs IH]; intros Hbody w HI; [done|].
  simpl. rewrite bind_run.
  pose proof (Hbody x w (list_elem_of_here _ _) HI) as H1.
  destruct (body x w) as [[[]|msg] w1]; simpl in *; [|done].
  apply IH; [|done]. intros y w' Hy. apply Hbody. by right.
Qed.


Lemma append_cancel (s a b : string) : s +:+ a = s +:+ b -> a = b.
Proof. induction s as [|c s IH]; simpl; [done|]. intros [= H]. by apply IH. Qed.

Lemma experiment_key_not_assignment a b : "experiment:" +:+ a <> "assignment:" +:+ b.
Proof. discriminate. Qed.

Lemma stats_key_not_metric_key id v m : stats_key id <> metric_key id v m.
Proof.
  unfold stats_key, metric_key. intros H.
  apply (append_cancel "experiment:") in H. apply append_cancel in H. discriminate.
Qed.

(** *** One write to a hash *)

Lemma hset_mapping_tables key mapping w : same_tables w (snd (hset_mapping key mapping w)).
Proof.
  unfold hset_mapping. destruct mapping as [|kv mapping]; [apply same_tables_refl|].
  run_m. destruct (redis w !! key) as [[h|s]|]; simpl; by repeat split.
Qed.

Lemma hset_mapping_other key mapping w k :
  k <> key -> redis (snd (hset_mapping key mapping w)) !! k = redis w !! k.
Proof.
  intros Hne. unfold hset_mapping. destruct mapping as [|kv mapping]; [done|].
  run_m. destruct (redis w !! key) as [[h|s]|]; simpl; [|done|].
  all: by rewrite lookup_insert_ne.
Qed.

Lemma hset_mapping_well_formed key mapping w :
  integer_counts mapping ->
  well_formed_store (redis w) ->
  well_formed_store (redis (snd (hset_mapping key mapping w))).
Proof.
  intros Hmap [Hstr Hcnt]. unfold hset_mapping.
  destruct mapping as [|kv mapping]; [done|]. run_m.
  set (mp := kv :: mapping) in *.
  assert (Hnew : forall (h : gmap string rval) v,
                   (list_to_map mp ∪ h) !! "count" = Some v ->
                   (forall v', h !! "count" = Some v' -> exists z, v' = RInt z) ->
                   exists z, v = RInt z).
  { intros h v Hv Hh. apply lookup_union_Some_raw in Hv as [Hv|[_ Hv]].
    - apply Hmap. by apply elem_of_list_to_map_2.
    - by apply Hh. }
  destruct (redis w !! key) as [[h|s]|] eqn:E; simpl; [|done|].
  - split.
    + intros k s Hk. destruct (decide (k = key)) as [->|Hne].
      * by rewrite lookup_insert_eq in Hk.
      * rewrite lookup_insert_ne in Hk by done. by eapply Hstr.
    + intros k h' v Hk Hv. destruct (decide (k = key)) as [->|Hne].
      * rewrite lookup_insert_eq in Hk. injection Hk as <-.
        eapply Hnew; [done|]. intros v' Hv'. by eapply Hcnt.
      * rewrite lookup_insert_ne in Hk by done. by eapply Hcnt.
  - split.
    + intros k s Hk. destruct (decide (k = key)) as [->|Hne].
      * by rewrite lookup_insert_eq in Hk.
      * rewrite lookup_insert_ne in Hk by done. by eapply Hstr.
    + intros k h' v Hk Hv. destruct (decide (k = key)) as [->|Hne].
      * rewrite lookup_insert_eq in Hk. injection Hk as <-.
        apply Hmap. by apply elem_of_list_to_map_2.
      * rewrite lookup_insert_ne in Hk by done. by eapply Hcnt.
Qed.


Lemma hget_succeeds rest field w :
  strings_under_assignment (redis w) ->
  exists x, hget ("experiment:" +:+ rest) field w = (Ok x, w).
Proof.
  intros Hstr. unfold hget. run_m.
  destruct (redis w !! _) as [[h|s]|] eqn:E; simpl; [by eexists| |by eexists].
  apply Hstr in E as [rest' E]. discriminate E.
Qed.



End StoreFacts.

(** ** Creation: rejections, success, the stats hash *)

Module CreateExtras.
Import StoreFacts.



(** The validator, as conditions on the specification. *)
Lemma validate_true_iff data :
  _validate_experiment_data data = true <->
  exists name variants metrics start,
    d_name data = Some name /\ d_variants data = Some variants /\
    d_metrics data = Some metrics /\ d_start_date data = Some start /\
    (2 <= length variants)%nat /\
    (Qabs (declared_total variants - 1) <= 1 # 100)%Q /\
    metrics <> [].
Proof.
  unfold _validate_experiment_data, declared_total. split.
  - destruct (d_name data) as [name|]; [|done].
    destruct (d_variants data) as [variants|]; [|done].
    destruct (d_metrics data) as [metrics|]; [|done].
    destruct (d_start_date data) as [start|]; [|done].
    destruct (Nat.ltb_spec (length variants) 2); [done|].
    destruct (Qle_bool _ _) eqn:Hq; [|done]. simpl.
    destruct metrics as [|m ms]; [done|]. intros _.
    exists name, variants, (m :: ms), start. repeat split; try done.
    by apply Qle_bool_iff.
  - intros (name & variants & metrics & start & -> & -> & -> & -> & Hlen & Hq & Hm).
    destruct (Nat.ltb_spec (length variants) 2); [lia|].
    apply Qle_bool_iff in Hq. rewrite Hq. simpl.
    by destruct metrics.
Qed.




(** X6. [create_experiment] under an id that is already stored raises and
    changes nothing: the stored experiment is not overwritten and its
    counters are not reset. *)
Theorem create_keeps_existing (w : World) (id : string) (data : experiment_data)
    (row : ExperimentRow) :
  ab_experiments w !! id = Some row ->
  exists msg, create_experiment id data w = (Raise msg, w).
Proof.
  intros Hrow. unfold create_experiment, try_except.
  destruct (_validate_experiment_data data) eqn:Hval; simpl; [|by eexists].
  apply validate_true_iff in Hval
    as (name & variants & metrics & start & -> & -> & -> & -> & _).
  rewrite bind_run. unfold _get_experiment at 1, gets at 1. rewrite Hrow.
  by eexists.
Qed.

Lemma create_keeps_existing_witness :
  exists msg, create_experiment "e1" (sample_data (latency "numerical")) converted_world
              = (Raise msg, converted_world).
Proof.
  apply (create_keeps_existing converted_world "e1" (sample_data (latency "numerical"))
           (sample_row conversion "running")).
  vm_compute. reflexivity.
Defined.



End CreateExtras.

(** ** What an operation keeps *)

Module Keeps.
Import StoreFacts.

Lemma keeps_ret {A} I (a : A) : keeps I (mret a).
Proof. by intros w. Qed.

Lemma keeps_raise {A} I msg : keeps I (raise (A := A) msg).
Proof. by intros w. Qed.

Lemma keeps_gets {A} I (f : World -> A) : keeps I (gets f).
Proof. by intros w. Qed.

Lemma keeps_lift {A} I (r : Result A) : keeps I (lift r).
Proof. by intros w. Qed.

Lemma keeps_modify I f : (forall w, I w -> I (f w)) -> keeps I (modify f).
Proof. intros H w. apply H. Qed.

Lemma keeps_bind {A B} I (m : M A) (k : A -> M B) :
  keeps I m -> (forall a, keeps I (k a)) -> keeps I (m ≫= k).
Proof.
  intros Hm Hk w HI. rewrite bind_run. specialize (Hm w HI).
  destruct (m w) as [[a|msg] w1]; simpl in *; [by apply Hk|done].
Qed.

Lemma keeps_try {A} I (body : M A) handler :
  keeps I body -> (forall msg, keeps I (handler msg)) -> keeps I (try_except body handler).
Proof.
  intros Hb Hh w HI. unfold try_except. specialize (Hb w HI).
  destruct (body w) as [[a|msg] w1]; simpl in *; [done|by apply Hh].
Qed.

Lemma keeps_for_each {A} I (xs : list A) body :
  (forall x, keeps I (body x)) -> keeps I (for_each xs body).
Proof. intros H w. apply for_each_keeps. intros x w' _. apply H. Qed.

(** Take an operation apart down to its writes. *)
Ltac keeps_step :=
  match goal with
  | |- keeps _ (mret _) => apply keeps_ret
  | |- keeps _ (raise _) => apply keeps_raise
  | |- keeps _ (gets _) => apply keeps_gets
  | |- keeps _ (lift _) => apply keeps_lift
  | |- keeps _ (_ ≫= _) => apply keeps_bind; [|intros ?]
  | |- keeps _ (try_except _ _) => apply keeps_try; [|intros ?]
  | |- keeps _ (for_each _ _) => apply keeps_for_each; intros ?
  | |- keeps _ (match ?x with _ => _ end) => destruct x
  | |- keeps _ (let '(_, _) := ?x in _) => destruct x
  end.

Ltac keeps_unfold :=
  progress unfold create_experiment, start_experiment, pause_experiment, resume_experiment,
    complete_experiment, _complete_experiment, update_status,
    _initialize_experiment_data, assign_user_to_variant, assign_lookup, assign_record,
    _record_assignment, _mark_assignment_completed, track_event, update_metric,
    materialize, _process_metric, _get_metric_type, _get_experiment,
    _get_experiment_variants, _get_experiment_metrics, _get_user_assignment,
    hincrby, hget_float, hget_int, hget, hgetall, hset, hmset.

Ltac keeps_open := repeat first [keeps_step | keeps_unfold].

(** *** The well-formed store *)

Lemma store_ok_hset_mapping key mapping :
  integer_counts mapping -> keeps store_ok (hset_mapping key mapping).
Proof. intros Hm w. by apply hset_mapping_well_formed. Qed.

Lemma store_ok_setex e u value : keeps store_ok (setex (cache_key e u) value).
Proof.
  intros w. unfold store_ok. intros [Hstr Hcnt]. unfold setex. run_m. split.
  - intros k s Hk. destruct (decide (k = cache_key e u)) as [->|Hne].
    + by eexists.
    + rewrite lookup_insert_ne in Hk by done. by eapply Hstr.
  - intros k h v Hk Hv. destruct (decide (k = cache_key e u)) as [->|Hne].
    + by rewrite lookup_insert_eq in Hk.
    + rewrite lookup_insert_ne in Hk by done. by eapply Hcnt.
Qed.

Lemma integer_counts_zero_counters : integer_counts zero_counters.
Proof.
  intros v Hv. unfold zero_counters in Hv.
  repeat (apply elem_of_cons in Hv as [Hv|Hv]; [injection Hv as ->; by eexists| ]).
  all: try discriminate.
  by apply elem_of_nil in Hv.
Qed.

Lemma integer_counts_single field v :
  (field = "count" -> exists z, v = RInt z) -> integer_counts [(field, v)].
Proof.
  intros H v' Hv'. apply list_elem_of_singleton in Hv'. injection Hv' as <- <-.
  by apply H.
Qed.

Lemma integer_counts_stats (variants : list ExperimentVariant) :
  integer_counts
    (flat_map (fun v => [("assignments:" +:+ variant_name v, RInt 0);
                         ("completions:" +:+ variant_name v, RInt 0)]) variants).
Proof.
  intros v Hv. apply list_elem_of_In, in_flat_map in Hv as (x & _ & Hx).
  simpl in Hx. destruct Hx as [Hx|[Hx|[]]]; discriminate Hx.
Qed.


Lemma store_ok_modify f : (forall w, redis (f w) = redis w) -> keeps store_ok (modify f).
Proof. intros H. apply keeps_modify. intros w. unfold store_ok. by rewrite H. Qed.

Ltac store_ok_writes :=
  match goal with
  | |- keeps store_ok (modify _) => apply store_ok_modify; intros ?; reflexivity
  | |- keeps store_ok (setex (cache_key _ _) _) => apply store_ok_setex
  | |- keeps store_ok (hset_mapping _ zero_counters) =>
      apply store_ok_hset_mapping, integer_counts_zero_counters
  | |- keeps store_ok (hset_mapping _ (flat_map _ _)) =>
      apply store_ok_hset_mapping, integer_counts_stats
  | |- keeps store_ok (hset_mapping _ [(_, _)]) =>
      apply store_ok_hset_mapping, integer_counts_single;
      first [discriminate | by eexists]
  end.

Lemma store_ok_create id data : keeps store_ok (create_experiment id data).
Proof. keeps_open; store_ok_writes. Qed.

Lemma store_ok_lifecycle id :
  keeps store_ok (start_experiment id) /\ keeps store_ok (pause_experiment id) /\
  keeps store_ok (resume_experiment id) /\ keeps store_ok (complete_experiment id).
Proof. split; [|split; [|split]]; keeps_open; store_ok_writes. Qed.

Lemma store_ok_assign e u r : keeps store_ok (assign_user_to_variant e u r).
Proof. keeps_open; store_ok_writes. Qed.

Lemma store_ok_track now ev : keeps store_ok (track_event now ev).
Proof. keeps_open; store_ok_writes. Qed.

Lemma store_ok_materialize id : keeps store_ok (materialize id).
Proof. keeps_open; store_ok_writes. Qed.

(** X8. The two habits of the Metric Store are an invariant of the service:
    if every plain string sits under an [assignment:] key and every
    [count] field holds an integer, the same is true after
    [create_experiment], the four transitions, [assign_user_to_variant],
    [track_event] and [materialize], whether they return or raise. *)
Theorem service_keeps_store_well_formed (w : World) :
  well_formed_store (redis w) ->
  (forall id data, well_formed_store (redis (snd (create_experiment id data w)))) /\
  (forall id,
     well_formed_store (redis (snd (start_experiment id w))) /\
     well_formed_store (redis (snd (pause_experiment id w))) /\
     well_formed_store (redis (snd (resume_experiment id w))) /\
     well_formed_store (redis (snd (complete_experiment id w)))) /\
  (forall e u r, well_formed_store (redis (snd (assign_user_to_variant e u r w)))) /\
  (forall now ev, well_formed_store (redis (snd (track_event now ev w)))) /\
  (forall id, well_formed_store (redis (snd (materialize id w)))).
Proof.
  intros Hw. split; [|split; [|split; [|split]]].
  - intros id data. by apply (store_ok_create id data w).
  - intros id. destruct (store_ok_lifecycle id) as (Hs & Hp & Hr & Hc).
    split; [by apply Hs|]. split; [by apply Hp|]. split; [by apply Hr|by apply Hc].
  - intros e u r. by apply (store_ok_assign e u r w).
  - intros now ev. by apply (store_ok_track now ev w).
  - intros id. by apply (store_ok_materialize id w).
Qed.


Lemma service_keeps_store_well_formed_witness :
  (forall id data,
     well_formed_store (redis (snd (create_experiment id data empty_world)))) /\
  (forall id,
     well_formed_store (redis (snd (start_experiment id empty_world))) /\
     well_formed_store (redis (snd (pause_experiment id empty_world))) /\
     well_formed_store (redis (snd (resume_experiment id empty_world))) /\
     well_formed_store (redis (snd (complete_experiment id empty_world)))) /\
  (forall e u r,
     well_formed_store (redis (snd (assign_user_to_variant e u r empty_world)))) /\
  (forall now ev, well_formed_store (redis (snd (track_event now ev empty_world)))) /\
  (forall id, well_formed_store (redis (snd (materialize id empty_world)))).
Proof.
  apply (service_keeps_store_well_formed empty_world).
  split; [intros k s Hk|intros k h v Hk _]; simpl in Hk;
    rewrite lookup_empty in Hk; discriminate Hk.
Defined.


End Keeps.

(** ** Event ingestion *)

Module EventExtras.
Import StoreFacts Keeps.

Lemma tables_hset_mapping w0 key mapping :
  keeps (same_tables w0) (hset_mapping key mapping).
Proof.
  intros w Hw. eapply same_tables_trans; [exact Hw|apply hset_mapping_tables].
Qed.

Lemma tables_update_metric w0 e variant v metric :
  keeps (same_tables w0) (update_metric e variant v metric).
Proof. keeps_open; apply tables_hset_mapping. Qed.

Lemma track_event_missing w now ev :
  ab_experiments w !! event_experiment_id ev = None ->
  track_event now ev w
    = (Raise "Failed to track event: Experiment not found", w).
Proof.
  intros Hnone. unfold track_event, _get_experiment. run_m. by rewrite Hnone.
Qed.



(** How a call of [track_event] on a stored experiment ends, given how the
    loop over the metrics ended. *)
Lemma track_event_run now ev w row :
  ab_experiments w !! event_experiment_id ev = Some row ->
  track_event now ev w =
  match for_each (exp_metrics row)
          (update_metric (event_experiment_id ev) (event_variant_name ev)
                         (event_amount ev)) w with
  | (Ok _, w1) =>
      let w2 := set_events (fun rows => (rows ++ [event_row ev])%list) w1 in
      (Ok "tracked",
       if String.eqb (event_name ev) "experiment_completed"
       then snd (_mark_assignment_completed now (event_experiment_id ev)
                   (event_user_id ev) w2)
       else w2)
  | (Raise msg, w1) => (Raise ("Failed to track event: " +:+ msg), w1)
  end.
Proof.
  intros Hrow. unfold track_event, try_except, _get_experiment.
  rewrite bind_run. unfold gets at 1. rewrite Hrow. rewrite bind_run.
  unfold event_amount.
  destruct (for_each _ _ w) as [[[]|msg] w1]; [|done].
  rewrite bind_run. unfold modify at 1. rewrite bind_run.
  unfold event_row. by destruct (String.eqb (event_name ev) "experiment_completed").
Qed.

(** X10. What [track_event] does to the repository. It never changes
    [ab_experiments] or [ab_results]. When it returns, exactly one row,
    that of the event, has been appended to [ab_events]; when it raises,
    no table has changed. Assignments change only for the event name
    [experiment_completed]. *)
Theorem track_event_repository (w : World) (now : Z) (ev : event) :
  ab_experiments (snd (track_event now ev w)) = ab_experiments w /\
  ab_results (snd (track_event now ev w)) = ab_results w /\
  match fst (track_event now ev w) with
  | Ok _ =>
      ab_events (snd (track_event now ev w)) = (ab_events w ++ [event_row ev])%list /\
      (event_name ev <> "experiment_completed" ->
       ab_assignments (snd (track_event now ev w)) = ab_assignments w)
  | Raise _ => same_tables w (snd (track_event now ev w))
  end.
Proof.
  destruct (ab_experiments w !! event_experiment_id ev) as [row|] eqn:Hrow.
  - rewrite (track_event_run now ev w row Hrow).
    pose proof (for_each_keeps (exp_metrics row)
      (update_metric (event_experiment_id ev) (event_variant_name ev) (event_amount ev))
      (same_tables w)
      (fun x w' _ => tables_update_metric w _ _ _ x w') w (same_tables_refl w))
      as (He & Ha & Hv & Hr).
    destruct (for_each _ _ w) as [[[]|msg] w1]; simpl in *.
    + destruct (String.eqb_spec (event_name ev) "experiment_completed") as [E|E];
        simpl; rewrite ?He, ?Hr, ?Hv; (split; [done|split; [done|split; [done|]]]).
      * done.
      * by rewrite Ha.
    + by repeat split.
  - rewrite (track_event_missing w now ev Hrow). simpl.
    by repeat split.
Qed.


(** *** The counters under one event *)

Lemma hget_fst key f w :
  fst (hget key f w) =
  match redis w !! key with
  | None => Ok None
  | Some (RHash h) => Ok (h !! f)
  | Some (RString _) => Raise "WRONGTYPE"
  end.
Proof. unfold hget. run_m. by destruct (redis w !! key) as [[h|s]|]. Qed.

Lemma hget_same_entry key f w w' :
  redis w' !! key = redis w !! key -> fst (hget key f w') = fst (hget key f w).
Proof. intros H. by rewrite !hget_fst, H. Qed.

Lemma hget_float_fst key f w :
  fst (hget_float key f w) =
  match fst (hget key f w) with
  | Ok x => Ok (match x with Some y => py_float y | None => 0%Q end)
  | Raise msg => Raise msg
  end.
Proof.
  unfold hget_float. rewrite bind_run.
  pose proof (MetricTheorems.hget_world key f w) as Hw.
  by destruct (hget key f w) as [[x|msg] w0].
Qed.

Lemma hget_int_fst key f w :
  fst (hget_int key f w) =
  match fst (hget key f w) with
  | Ok x => match x with Some y => py_int y | None => Ok 0 end
  | Raise msg => Raise msg
  end.
Proof.
  unfold hget_int. rewrite bind_run.
  pose proof (MetricTheorems.hget_world key f w) as Hw.
  by destruct (hget key f w) as [[x|msg] w0].
Qed.

Lemma hget_float_world key f w : snd (hget_float key f w) = w.
Proof.
  unfold hget_float. rewrite bind_run.
  pose proof (MetricTheorems.hget_world key f w) as Hw.
  by destruct (hget key f w) as [[x|msg] w0].
Qed.

Lemma hget_int_world key f w : snd (hget_int key f w) = w.
Proof.
  unfold hget_int. rewrite bind_run.
  pose proof (MetricTheorems.hget_world key f w) as Hw.
  destruct (hget key f w) as [[x|msg] w0]; [|done]. simpl in *. subst.
  unfold lift. done.
Qed.

(** The three reads, as they depend on the three fields. *)
Lemma read_counters_fst key w :
  fst (read_counters key w) =
  match fst (hget_float key "sum" w), fst (hget_int key "count" w),
        fst (hget_float key "squared_sum" w) with
  | Ok s, Ok c, Ok q => Ok (s, c, q)
  | Raise msg, _, _ => Raise msg
  | _, Raise msg, _ => Raise msg
  | _, _, Raise msg => Raise msg
  end.
Proof.
  unfold read_counters. rewrite bind_run.
  pose proof (hget_float_world key "sum" w).
  destruct (hget_float key "sum" w) as [[s|msg] w0]; simpl in *; subst; [|done].
  rewrite bind_run. pose proof (hget_int_world key "count" w).
  destruct (hget_int key "count" w) as [[c|msg] w0]; simpl in *; subst; [|done].
  rewrite bind_run. pose proof (hget_float_world key "squared_sum" w).
  by destruct (hget_float key "squared_sum" w) as [[q|msg] w0]; simpl in *; subst.
Qed.

Lemma read_counters_same_entry key w w' :
  redis w' !! key = redis w !! key ->
  fst (read_counters key w') = fst (read_counters key w).
Proof.
  intros H. rewrite !read_counters_fst, !hget_float_fst, !hget_int_fst.
  by rewrite !(hget_same_entry key _ w w' H).
Qed.



Lemma entry_hset_mapping (r0 : option redis_entry) k key mapping :
  k <> key -> keeps (fun w => redis w !! k = r0) (hset_mapping key mapping).
Proof. intros Hne w Hw. by rewrite hset_mapping_other. Qed.











Lemma append_not_self (s t : string) : t <> "" -> s +:+ t <> s.
Proof.
  intros Ht. induction s as [|c s IH]; simpl; [done|]. intros [= H]. by apply IH.
Qed.

(** X13. An event on a categorical metric writes to the key
    [...:categories] alone. The metric's own hash, with the [sum], [count]
    and [squared_sum] that materialisation reads, is left as it was, so
    categorical events never reach the materialised value or the sample
    size. *)
Theorem categorical_event_keeps_counters (w : World) (e variant : string) (v : Q)
    (metric : ExperimentMetric) :
  metric_type metric = "categorical" ->
  (forall k, k <> category_key e variant (metric_name metric) ->
     redis (snd (update_metric e variant v metric w)) !! k = redis w !! k) /\
  redis (snd (update_metric e variant v metric w))
    !! metric_key e variant (metric_name metric)
  = redis w !! metric_key e variant (metric_name metric) /\
  fst (read_counters (metric_key e variant (metric_name metric))
         (snd (update_metric e variant v metric w)))
  = fst (read_counters (metric_key e variant (metric_name metric)) w).
Proof.
  intros Hcat.
  assert (Hframe : forall k, k <> category_key e variant (metric_name metric) ->
            redis (snd (update_metric e variant v metric w)) !! k = redis w !! k).
  { intros k Hk. unfold update_metric. rewrite Hcat. simpl.
    assert (Hkeep : keeps (fun w' => redis w' !! k = redis w !! k)
              (hincrby (category_key e variant (metric_name metric)) (str_value v) 1)).
    { keeps_open. by apply entry_hset_mapping. }
    by apply Hkeep. }
  assert (Hne : metric_key e variant (metric_name metric)
                <> category_key e variant (metric_name metric)).
  { unfold category_key. intros H. symmetry in H. by apply append_not_self in H. }
  split; [done|]. split; [by apply Hframe|].
  apply read_counters_same_entry. by apply Hframe.
Qed.

Lemma categorical_event_keeps_counters_witness :
  (forall k, k <> category_key "e1" "A" (metric_name colour) ->
     redis (snd (update_metric "e1" "A" 1 colour (running_world colour))) !! k
     = redis (running_world colour) !! k) /\
  redis (snd (update_metric "e1" "A" 1 colour (running_world colour)))
    !! metric_key "e1" "A" (metric_name colour)
  = redis (running_world colour) !! metric_key "e1" "A" (metric_name colour) /\
  fst (read_counters (metric_key "e1" "A" (metric_name colour))
         (snd (update_metric "e1" "A" 1 colour (running_world colour))))
  = fst (read_counters (metric_key "e1" "A" (metric_name colour)) (running_world colour)).
Proof.
  apply (categorical_event_keeps_counters (running_world colour) "e1" "A" 1 colour).
  reflexivity.
Defined.
End EventExtras.

(** ** Assignment: rejections, frames, completion *)

Module AssignExtras.
Import StoreFacts Keeps.

#[local] Arguments Select._select_variant_by_weight : simpl never.

(** X14. [assign_user_to_variant] serves running experiments only: when the
    id names no experiment, or one whose status is not [running] (draft,
    paused, completed, cancelled), the call raises and writes nothing. *)
Theorem assign_requires_running (w : World) (e u : string) (r : Q) :
  (forall row, ab_experiments w !! e = Some row -> exp_status row <> "running") ->
  exists msg, assign_user_to_variant e u r w = (Raise msg, w).
Proof.
  intros Hst. unfold assign_user_to_variant, assign_lookup, _get_experiment. run_m.
  destruct (ab_experiments w !! e) as [row|] eqn:Hrow; simpl; [|by eexists].
  destruct (String.eqb_spec (exp_status row) "running") as [E|E]; simpl.
  - by destruct (Hst row eq_refl).
  - by eexists.
Qed.

Lemma assign_requires_running_witness :
  exists msg, assign_user_to_variant "e1" "u1" (1 # 2) (created_world conversion)
              = (Raise msg, created_world conversion).
Proof.
  apply (assign_requires_running (created_world conversion) "e1" "u1" (1 # 2)).
  intros row Hrow. vm_compute in Hrow. injection Hrow as <-. simpl. discriminate.
Defined.

Lemma find_app_miss {A} (P : A -> bool) (l : list A) (x : A) :
  P x = false -> find P (l ++ [x]) = find P l.
Proof.
  intros Hx. induction l as [|a l IH]; simpl; [by rewrite Hx|].
  by destruct (P a).
Qed.

Lemma open_assignment_of_new_row e u e' u' v :
  open_assignment_of e' u' (new_row e u v) = true -> e = e' /\ u = u'.
Proof.
  unfold open_assignment_of. simpl.
  destruct (String.eqb_spec e e'), (String.eqb_spec u u'); simpl; done.
Qed.

Lemma setex_keeps I key value :
  (forall w r, I w -> I (set_redis r w)) -> keeps I (setex key value).
Proof. intros H. unfold setex. keeps_open. apply keeps_modify. intros w. apply H. Qed.

(** X15. Assigning one user never changes what the service answers for
    another: after [assign_user_to_variant] for (experiment, user), however
    it ended, [_get_user_assignment] for any other pair finds the same row
    as before. *)
Theorem assign_leaves_other_users (w : World) (e u e' u' : string) (r : Q) :
  (e, u) <> (e', u') ->
  fst (_get_user_assignment e' u' (snd (assign_user_to_variant e u r w)))
  = fst (_get_user_assignment e' u' w).
Proof.
  intros Hne.
  assert (Hkeep : keeps (fun w' => find (open_assignment_of e' u') (ab_assignments w')
                                   = find (open_assignment_of e' u') (ab_assignments w))
            (assign_user_to_variant e u r)).
  { keeps_open.
    - apply keeps_modify. intros w0 H0. simpl. rewrite find_app_miss; [done|].
      destruct (open_assignment_of e' u' (new_row e u _)) eqn:E; [|done].
      apply open_assignment_of_new_row in E as [-> ->]. done.
    - by apply setex_keeps. }
  unfold _get_user_assignment, gets. simpl. f_equal. by apply Hkeep.
Qed.

Lemma assign_leaves_other_users_witness :
  fst (_get_user_assignment "e1" "u1"
         (snd (assign_user_to_variant "e1" "u2" (3 # 4) assigned_world)))
  = fst (_get_user_assignment "e1" "u1" assigned_world).
Proof.
  apply (assign_leaves_other_users assigned_world "e1" "u2" "e1" "u1" (3 # 4)).
  discriminate.
Defined.




(** *** Completion *)



(** A row of another pair is not touched by the completion. *)
Lemma closed_other now e u a :
  (asg_experiment_id a, asg_user_id a) <> (e, u) -> closed now e u a = a.
Proof.
  intros Hne. unfold closed, open_assignment_of.
  destruct (String.eqb_spec (asg_experiment_id a) e) as [He|He];
    destruct (String.eqb_spec (asg_user_id a) u) as [Hu|Hu]; simpl; try done.
  destruct Hne. by rewrite He, Hu.
Qed.


End AssignExtras.

(** ** Materialisation *)

Module MaterializeExtras.
Import StoreFacts Keeps.

(** *** The upsert *)




(** *** One pass, as a change of [ab_results] *)













Lemma for_each_never_raises {A} (xs : list A) (body : A -> M unit) :
  (forall x w, fst (body x w) = Ok tt) -> forall w, fst (for_each xs body w) = Ok tt.
Proof.
  intros Hbody. induction xs as [|x xs IH]; intros w; [done|].
  simpl. rewrite bind_run. specialize (Hbody x w).
  destruct (body x w) as [[[]|msg] w1]; simpl in *; [apply IH|done].
Qed.

Lemma process_metric_never_raises id mname variants w :
  fst (_process_metric id mname variants w) = Ok tt.
Proof.
  unfold _process_metric, try_except.
  by destruct (for_each _ _ w) as [[[]|msg] w1].
Qed.

(** X18. [materialize] never raises, whatever the store holds: a failure
    while one metric is processed is swallowed. It writes to [ab_results]
    only: the Metric Store, the experiments, the assignments and the events
    are as before. *)
Theorem materialize_only_writes_results (w : World) (id : string) :
  fst (materialize id w) = Ok tt /\
  redis (snd (materialize id w)) = redis w /\
  ab_experiments (snd (materialize id w)) = ab_experiments w /\
  ab_assignments (snd (materialize id w)) = ab_assignments w /\
  ab_events (snd (materialize id w)) = ab_events w.
Proof.
  split.
  - unfold materialize, _get_experiment_variants, _get_experiment_metrics.
    rewrite !bind_run. unfold gets. apply for_each_never_raises.
    intros m w'. apply process_metric_never_raises.
  - assert (Hkeep : keeps (fun w' => redis w' = redis w /\
                                     ab_experiments w' = ab_experiments w /\
                                     ab_assignments w' = ab_assignments w /\
                                     ab_events w' = ab_events w) (materialize id)).
    { keeps_open. by apply keeps_modify. }
    by apply Hkeep.
Qed.




End MaterializeExtras.

(** ** Results and conclusions *)

Module SummaryExtras.
Import Summary Conclusions.

Lemma od_get_set_eq {V} k (v : V) d : od_get k (od_set k v d) = Some v.
Proof.
  induction d as [|[k' v'] d IH]; simpl; [by rewrite String.eqb_refl|].
  destruct (String.eqb k' k) eqn:E; simpl; by rewrite E.
Qed.

Lemma od_get_set_ne {V} k k' (v : V) d :
  k <> k' -> od_get k' (od_set k v d) = od_get k' d.
Proof.
  intros Hne. induction d as [|[k0 v0] d IH]; simpl.
  - by destruct (String.eqb_spec k k').
  - destruct (String.eqb_spec k0 k) as [->|E]; simpl.
    + by destruct (String.eqb_spec k k').
    + by destruct (String.eqb k0 k').
Qed.

Lemma group_results_snoc rows row :
  group_results (rows ++ [row]) = group_step (group_results rows) row.
Proof. unfold group_results. by rewrite fold_left_app. Qed.

Lemma entry_of_group_step results row v m :
  entry_of (group_step results row) v m =
  if String.eqb (res_variant_name row) v && String.eqb (res_metric_name row) m
  then Some (entry_of_row row)
  else entry_of results v m.
Proof.
  unfold entry_of, group_step. cbv zeta.
  destruct (String.eqb_spec (res_variant_name row) v) as [->|Hv]; simpl.
  - rewrite od_get_set_eq. simpl.
    destruct (String.eqb_spec (res_metric_name row) m) as [->|Hm].
    + by rewrite od_get_set_eq.
    + rewrite od_get_set_ne by done.
      destruct (od_get v results) as [ms|] eqn:E; simpl; [by rewrite E|].
      by rewrite od_get_set_eq.
  - rewrite od_get_set_ne by done.
    destruct (od_get (res_variant_name row) results); [done|].
    by rewrite od_get_set_ne.
Qed.

(** X20. When several fetched rows share a (variant, metric) pair, the
    grouping of [get_experiment_results] reports the last of them: the
    entry under [results[variant][metric]] is built from the last row of
    the fetched list with that pair, and there is no entry when no row has
    it. *)
Theorem grouping_keeps_last_row (rows : list ResultRow) (v m : string) :
  entry_of (group_results rows) v m
  = entry_of_row
      <$> find (fun row => String.eqb (res_variant_name row) v
                           && String.eqb (res_metric_name row) m) (rev rows).
Proof.
  induction rows as [|row rows IH] using rev_ind; [done|].
  rewrite group_results_snoc, entry_of_group_step, rev_unit. simpl.
  by destruct (_ && _).
Qed.


(** The maximum search never ends below where it starts. *)
Lemma best_above_start (rest : odict metric_entry) : forall best,
  (entry_value (snd best)
   <= entry_value (snd (fold_left (fun best kv =>
                           if Qlt_le_dec (entry_value (snd best)) (entry_value (snd kv))
                           then kv else best) rest best)))%Q.
Proof.
  induction rest as [|kv rest IH]; intros best; simpl; [apply Qle_refl|].
  destruct (Qlt_le_dec _ _) as [Hlt|Hle].
  - eapply Qle_trans; [apply Qlt_le_weak, Hlt|apply IH].
  - apply IH.
Qed.

(** X21. The improvement [_calculate_improvement] reports is never negative
    when the value of the first entry of its dictionary, its control, is
    not negative: the best value is a maximum over entries that include
    the control itself, and a control of 0 gives 0. *)
Theorem improvement_never_negative (name : string) (control : metric_entry)
    (rest : odict metric_entry) :
  (0 <= entry_value control)%Q ->
  (0 <= _calculate_improvement ((name, control) :: rest))%Q.
Proof.
  intros Hc. unfold _calculate_improvement, best_of. simpl.
  rewrite String.eqb_refl.
  pose proof (best_above_start rest (name, control)) as Hbest. simpl in Hbest.
  destruct (fold_left _ rest (name, control)) as [bname best]. simpl in *.
  destruct (Qeq_bool (entry_value control) 0) eqn:E; [apply Qle_refl|].
  apply Qeq_bool_neq in E.
  assert (Hpos : (0 < entry_value control)%Q).
  { apply Qle_lteq in Hc as [H|H]; [done|]. destruct E. by symmetry. }
  apply Qmult_le_0_compat; [|discriminate].
  apply Qle_shift_div_l; [done|]. rewrite Qmult_0_l.
  unfold Qminus. rewrite <- (Qplus_opp_r (entry_value control)).
  by apply Qplus_le_l.
Qed.

Lemma improvement_never_negative_witness :
  (0 <= _calculate_improvement
          [("conversion", {| entry_value := 3 # 10; entry_sample_size := 100;
                             entry_p_value := None;
                             entry_statistical_significance := true |});
           ("latency", {| entry_value := 12; entry_sample_size := 100;
                          entry_p_value := None;
                          entry_statistical_significance := false |})])%Q.
Proof.
  apply (improvement_never_negative "conversion"). simpl. discriminate.
Defined.

(** X22. The conclusions are never empty. They end with the low-sample
    caveat exactly when the sample sizes of all entries, summed over every
    variant and metric, stay below 1000; they contain the sentence "No
    statistically significant differences" exactly when the summary has no
    finding, and otherwise one sentence per finding, in order. *)
Theorem conclusions_shape (fmt : Q -> string) (findings : list finding)
    (results : odict (odict metric_entry)) :
  _generate_experiment_conclusions fmt findings results <> [] /\
  (low_sample_size ∈ _generate_experiment_conclusions fmt findings results
   <-> (total_sample_size results < 1000)%Z) /\
  (no_difference ∈ _generate_experiment_conclusions fmt findings results
   <-> findings = []) /\
  length (_generate_experiment_conclusions fmt findings results)
  = (Nat.max 1 (length findings)
     + (if (total_sample_size results <? 1000)%Z then 1 else 0))%nat.
Proof.
  unfold _generate_experiment_conclusions.
  set (sentence := fun f : finding => _).
  assert (Hs : forall f, sentence f <> no_difference /\ sentence f <> low_sample_size).
  { intros f. subst sentence. cbv beta. split; discriminate. }
  assert (Hmap : forall fs c, (forall f, sentence f <> c) -> ~ c ∈ map sentence fs).
  { intros fs c Hc Hin. apply list_elem_of_fmap in Hin as (f & Hf & _).
    by apply (Hc f). }
  destruct (Z.ltb_spec (total_sample_size results) 1000) as [Hlow|Hhigh];
    destruct findings as [|f fs].
  - split; [done|]. split; [|split; [|done]].
    + split; [done|]. intros _. apply list_elem_of_In. simpl. auto.
    + split; [done|]. intros _. apply list_elem_of_In. simpl. auto.
  - split; [done|]. split; [|split].
    + split; [done|]. intros _. apply elem_of_app. right. apply list_elem_of_here.
    + split; [|done]. intros Hin. exfalso.
      apply elem_of_app in Hin as [Hin|Hin].
      * apply (Hmap (f :: fs) no_difference); [intros g; apply Hs|done].
      * apply list_elem_of_singleton in Hin. discriminate Hin.
    + rewrite length_app, length_map. simpl. lia.
  - split; [done|]. split; [|split; [|done]].
    + split; [|lia]. intros Hin. apply list_elem_of_singleton in Hin. discriminate Hin.
    + split; [done|]. intros _. apply list_elem_of_here.
  - split; [done|]. split; [|split].
    + split; [|lia]. intros Hin. exfalso.
      apply (Hmap (f :: fs) low_sample_size); [intros g; apply Hs|done].
    + split; [|done]. intros Hin. exfalso.
      apply (Hmap (f :: fs) no_difference); [intros g; apply Hs|done].
    + rewrite length_map. simpl. lia.
Qed.
End SummaryExtras.

(** ** Selection: zero weights, scaling *)

Module SelectExtras.
Import Select SelectFacts.

Lemma cumulative_weight_succ vs : forall j v,
  vs !! S j = Some v ->
  (cumulative_weight vs (S j) == cumulative_weight vs j + variant_weight v)%Q.
Proof.
  unfold cumulative_weight.
  induction vs as [|x vs IH]; intros j v Hv; [done|].
  destruct j as [|j].
  - destruct vs as [|y vs]; [done|]. simpl in *. injection Hv as ->.
    rewrite ?take_0. simpl. ring.
  - simpl in Hv. specialize (IH j v Hv).
    change (take (S (S (S j))) (x :: vs)) with (x :: take (S (S j)) vs).
    change (take (S (S j)) (x :: vs)) with (x :: take (S j) vs).
    simpl sum_weights at 1 2. rewrite IH. ring.
Qed.

Lemma cumulative_weight_first vs v :
  vs !! 0%nat = Some v -> (cumulative_weight vs 0 == variant_weight v)%Q.
Proof.
  unfold cumulative_weight. destruct vs as [|x vs]; [done|].
  simpl. intros [= ->]. rewrite ?take_0. simpl. ring.
Qed.

(** X23. A variant of weight 0 receives no traffic, with one exception: the
    loop of [_select_variant_by_weight] stops at a zero-weight variant only
    if it is the first of the list and the draw is not above 0 (as when
    [random.random()] returns exactly 0.0). *)
Theorem zero_weight_selected_only_first (vs : list ExperimentVariant) (r : Q)
    (i : nat) (v : ExperimentVariant) :
  find_index (r * final_sum 0 (map variant_weight vs)) 0
    (cumulative_weights 0 (map variant_weight vs)) = Some i ->
  vs !! i = Some v ->
  (variant_weight v == 0)%Q ->
  i = 0%nat /\ (r * final_sum 0 (map variant_weight vs) <= 0)%Q.
Proof.
  intros Hfind Hv Hzero.
  apply find_index_Some in Hfind as (j & c & -> & Hc & Hle & Hmin). simpl in *.
  pose proof Hc as Hc'. apply cumulative_weights_lookup in Hc'.
  rewrite Qplus_0_l in Hc'.
  destruct j as [|j].
  - split; [done|]. rewrite Hc', cumulative_weight_first in Hle by done.
    by rewrite Hzero in Hle.
  - exfalso.
    assert (Hj : (j < length (cumulative_weights 0 (map variant_weight vs)))%nat).
    { apply lookup_lt_Some in Hc. lia. }
    apply lookup_lt_is_Some_2 in Hj as [c0 Hc0].
    apply (Hmin j c0); [lia|done|].
    apply cumulative_weights_lookup in Hc0. rewrite Qplus_0_l in Hc0.
    rewrite Hc0. rewrite Hc', (cumulative_weight_succ vs j v Hv), Hzero in Hle.
    by rewrite Qplus_0_r in Hle.
Qed.


Lemma zero_weight_selected_only_first_witness :
  0%nat = 0%nat /\ (0 * final_sum 0 (map variant_weight idle_first) <= 0)%Q.
Proof.
  apply (zero_weight_selected_only_first idle_first 0 0 idle_arm).
  - vm_compute. reflexivity.
  - reflexivity.
  - reflexivity.
Defined.

(** *** Scaling the weights *)







End SelectExtras.

(** ** The stats hash *)

Module StatsExtras.
Import StoreFacts Keeps.






Lemma append_assoc (a b c : string) : (a +:+ b) +:+ c = a +:+ (b +:+ c).
Proof. induction a as [|x a IH]; [done|]. change (String x ((a +:+ b) +:+ c) = String x (a +:+ (b +:+ c))).
  exact (f_equal (String x) IH). Qed.

Lemma stats_key_not_category_key id v m : stats_key id <> category_key id v m.
Proof.
  unfold stats_key, category_key, metric_key. rewrite !append_assoc. intros H.
  apply (append_cancel "experiment:") in H. apply append_cancel in H. discriminate.
Qed.

Lemma stats_key_not_cache_key id e u : stats_key id <> cache_key e u.
Proof. discriminate. Qed.

Lemma entry_setex (r0 : option redis_entry) k key value :
  k <> key -> keeps (fun w => redis w !! k = r0) (setex key value).
Proof.
  intros Hne w Hw. unfold setex. run_m. simpl.
  by rewrite lookup_insert_ne.
Qed.

Ltac stats_writes id :=
  match goal with
  | |- keeps _ (modify _) => apply keeps_modify; intros ? H; exact H
  | |- keeps _ (hset_mapping (metric_key id _ _) _) =>
      apply EventExtras.entry_hset_mapping, stats_key_not_metric_key
  | |- keeps _ (hset_mapping (category_key id _ _) _) =>
      apply EventExtras.entry_hset_mapping, stats_key_not_category_key
  | |- keeps _ (setex (cache_key _ _) _) =>
      apply entry_setex, stats_key_not_cache_key
  end.

(** X26. The counters of the stats hash are written once and never again:
    no assignment, no event (not even [experiment_completed]), no
    transition and no materialisation of an experiment changes what is
    stored under its key [experiment:<id>:stats], so
    [assignments:<variant>] and [completions:<variant>] stay as
    [create_experiment] left them. *)
Theorem stats_never_updated (w : World) (now : Z) (ev : event) (u : string) (r : Q) :
  redis (snd (assign_user_to_variant (event_experiment_id ev) u r w))
    !! stats_key (event_experiment_id ev)
  = redis w !! stats_key (event_experiment_id ev) /\
  redis (snd (track_event now ev w)) !! stats_key (event_experiment_id ev)
  = redis w !! stats_key (event_experiment_id ev) /\
  redis (snd (start_experiment (event_experiment_id ev) w))
    !! stats_key (event_experiment_id ev)
  = redis w !! stats_key (event_experiment_id ev) /\
  redis (snd (pause_experiment (event_experiment_id ev) w))
    !! stats_key (event_experiment_id ev)
  = redis w !! stats_key (event_experiment_id ev) /\
  redis (snd (resume_experiment (event_experiment_id ev) w))
    !! stats_key (event_experiment_id ev)
  = redis w !! stats_key (event_experiment_id ev) /\
  redis (snd (complete_experiment (event_experiment_id ev) w))
    !! stats_key (event_experiment_id ev)
  = redis w !! stats_key (event_experiment_id ev) /\
  redis (snd (materialize (event_experiment_id ev) w))
    !! stats_key (event_experiment_id ev)
  = redis w !! stats_key (event_experiment_id ev).
Proof.
  set (id := event_experiment_id ev).
  set (I := fun w' : World => redis w' !! stats_key id = redis w !! stats_key id).
  assert (Ha : keeps I (assign_user_to_variant id u r)).
  { keeps_open; stats_writes id. }
  assert (Ht : keeps I (track_event now ev)).
  { keeps_open; fold id; stats_writes id. }
  assert (Hs : keeps I (start_experiment id)).
  { keeps_open; stats_writes id. }
  assert (Hp : keeps I (pause_experiment id)).
  { keeps_open; stats_writes id. }
  assert (Hr : keeps I (resume_experiment id)).
  { keeps_open; stats_writes id. }
  assert (Hc : keeps I (complete_experiment id)).
  { keeps_open; stats_writes id. }
  assert (Hm : keeps I (materialize id)).
  { keeps_open; stats_writes id. }
  split; [by apply Ha|]. split; [by apply Ht|]. split; [by apply Hs|].
  split; [by apply Hp|]. split; [by apply Hr|].
  split; [by apply Hc|by apply Hm].
Qed.
End StatsExtras.
